(** * KafkaBrokerApp: provisioning of a Kafka broker for a test cluster

    A shallow embedding of [trivup/apps/KafkaBrokerApp.py]: the constructor
    (listener and port set-up, SASL/JAAS composition, configuration files,
    start command), [operational] and [deploy]. The base class [trivup.App],
    the cluster, the port allocator and the Kerberos KDC application are
    collaborators whose code is not part of the file; they are taken as
    parameters (record [Collaborators]) over an abstract external state. *)

From Stdlib Require Import ZArith DecimalString Ascii.
From stdpp Require Import gmap strings list sorting.

(** ** The Python built-ins the source relies on *)
Module Py.

(** The line feed ['\n'] and the double quote. *)
Definition LF : string := String "010"%char EmptyString.
Definition DQ : string := String "034"%char EmptyString.

(** [s.split(sep)] with a one-character separator: every occurrence of
    [sep] ends a field, so the result is never empty and an empty string
    gives one empty field. *)
Fixpoint split (sep : ascii) (s : string) : list string :=
  match s with
  | EmptyString => [EmptyString]
  | String c s' =>
      if decide (c = sep) then EmptyString :: split sep s'
      else match split sep s' with
           | w :: ws => String c w :: ws
           | [] => [String c EmptyString]
           end
  end.

(** [s.replace(c, '')]: every occurrence of the character is removed. *)
Fixpoint remove_char (c : ascii) (s : string) : string :=
  match s with
  | EmptyString => EmptyString
  | String d s' =>
      if decide (d = c) then remove_char c s' else String d (remove_char c s')
  end.

(** [sep.join(l)] *)
Fixpoint join (sep : string) (l : list string) : string :=
  match l with
  | [] => EmptyString
  | [x] => x
  | x :: l' => x +:+ sep +:+ join sep l'
  end.

(** [len(s)] *)
Definition len (s : string) : nat := String.length s.

(** ['%d' % n] *)
Definition fmt_d (n : Z) : string := NilZero.string_of_int (Z.to_int n).

(** [sorted(set(l))] for a list of strings: the set drops duplicates and
    [sorted] orders its elements by the character-wise comparison of
    [str]. *)
Definition sorted_set (l : list string) : list string :=
  merge_sort String.le (elements (list_to_set l : gset string)).

(** [x in l] for a list of strings. *)
Definition contains (x : string) (l : list string) : bool :=
  bool_decide (x ∈ l).

(** [s.startswith(p)] and [s.endswith(p)] for a one-character [p]. *)
Definition startswith (c : ascii) (s : string) : bool :=
  match s with
  | String d _ => bool_decide (d = c)
  | EmptyString => false
  end.

Fixpoint endswith (c : ascii) (s : string) : bool :=
  match s with
  | EmptyString => false
  | String d EmptyString => bool_decide (d = c)
  | String _ s' => endswith c s'
  end.

(** One step of [os.path.join] (posixpath): an absolute component
    replaces the path, otherwise it is appended after a single slash. *)
Definition path_join2 (path b : string) : string :=
  if startswith "/" b then b
  else if bool_decide (path = EmptyString) || endswith "/" path then path +:+ b
  else path +:+ "/" +:+ b.

(** [os.path.join(a, *p)] *)
Definition path_join (a : string) (p : list string) : string :=
  foldl path_join2 a p.

(** [l[-1] += suffix] on a list of strings; an empty list has no last
    element. *)
Fixpoint append_to_last (l : list string) (suffix : string) : option (list string) :=
  match l with
  | [] => None
  | [x] => Some [x +:+ suffix]
  | x :: l' => cons x <$> append_to_last l' suffix
  end.

End Py.

(** ** Values, exceptions and events *)

(** The values a configuration dict holds in this program. *)
Inductive value :=
  | VStr (s : string)
  | VInt (n : Z)
  | VNone.

Global Instance value_eq_dec : EqDecision value.
Proof. solve_decision. Defined.

(** [str(v)], as used by ['%s' % v]. *)
Definition str (v : value) : string :=
  match v with
  | VStr s => s
  | VInt n => Py.fmt_d n
  | VNone => "None"
  end.

(** Truth value of [v] in an [if]. *)
Definition truthy (v : value) : bool :=
  match v with
  | VStr s => negb (bool_decide (s = EmptyString))
  | VInt n => negb (bool_decide (n = 0%Z))
  | VNone => false
  end.

(** The exceptions the code can raise, by class. *)
Inductive exn :=
  | Exception (msg : string)
  | NotImplementedError (msg : string)
  | KeyError (key : string)
  | IndexError
  | ValueError
  | AttributeError
  | TypeError.

(** An argument of a debug message; [ASeconds] stands for the difference of
    two clock readings printed with ['%d']. Debug messages are kept as
    format and arguments. *)
Inductive fmt_arg :=
  | AStr (s : string)
  | AList (l : list string)
  | ASeconds (t_start t_now : Z).

(** What the application does to its surroundings, in call order. *)
Inductive event :=
  | Dbg (fmt : string) (args : list fmt_arg)
  | Log (msg : string)
  | EnvAdd (var : string) (val : value)
  | PortNext
  | CreateFile (name data : string)
  | CreateDir (name : string)
  | CreateFileFromTemplate (name : string) (conf : gmap string value)
      (append_data : option string) (subst : option bool)
  | AddPrincipal (service host : string)
  | MkPath (name : string)
  | System (cmd : string).

(** A handle on another application of the cluster: its configuration. *)
Record AppHandle := { app_conf : gmap string value }.

(** How [cluster.find_app] is asked for an application: by class name
    (a string) or by class object. *)
Inductive app_ref :=
  | ByName (name : string)
  | ByClass (name : string).

(** The collaborators, over an external state [E] (cluster registry, port
    allocator, file system, processes). A call takes the state and returns
    the new state with either an exception or a result. *)
Record Collaborators (E : Type) := {
  find_app : app_ref → E → option AppHandle;
  TcpPortAllocator_next : E → E * (exn + Z);
  add_principal : AppHandle → string → string → E → E * (exn + (string * string));
  create_file : string → string → E → E * (exn + string);
  create_dir : string → E → E * (exn + string);
  create_file_from_template :
    string → gmap string value → option string → option bool → E → E * (exn + string);
  mkpath : string → E → E * (exn + string);
  resource_path : string → E → string;
  os_path_exists : string → E → bool;
  os_system : string → E → E * Z;
  (** [time.time()]: a clock reading, in ticks. *)
  time_time : E → Z
}.

Arguments find_app {E}.
Arguments TcpPortAllocator_next {E}.
Arguments add_principal {E}.
Arguments create_file {E}.
Arguments create_dir {E}.
Arguments create_file_from_template {E}.
Arguments mkpath {E}.
Arguments resource_path {E}.
Arguments os_path_exists {E}.
Arguments os_system {E}.
Arguments time_time {E}.

(** The application object: the attributes the source reads and writes,
    the events so far and the external state. *)
Record App (E : Type) := {
  conf : gmap string value;
  name : string;
  node_name : string;
  zk : option AppHandle;
  kerberos : option (string * string);
  trace : list event;
  ext : E
}.

Arguments conf {E}.
Arguments name {E}.
Arguments node_name {E}.
Arguments zk {E}.
Arguments kerberos {E}.
Arguments trace {E}.
Arguments ext {E}.

(** ** The state and exception monad of the methods *)

Section Monad.
Context {E : Type}.

(** A method body: from the object before to the object after, with an
    exception or a result. The object after a raise is the object as the
    raise left it. *)
Definition M (A : Type) : Type := App E → App E * (exn + A).

Definition ret {A} (x : A) : M A := λ a, (a, inr x).

Definition bind {A B} (m : M A) (f : A → M B) : M B :=
  λ a : App E, match m a with
       | (a', inr x) => f x a'
       | (a', inl e) => (a', inl e)
       end.

Definition raise {A} (e : exn) : M A := λ a, (a, inl e).

End Monad.

Notation "x <~ m ; k" := (bind m (λ x, k))
  (at level 100, m at next level, k at level 200, right associativity,
   format "'[v' x  <~  m ; '/' k ']'").
Notation "m ;; k" := (bind m (λ _, k))
  (at level 100, k at level 200, right associativity,
   format "'[v' m  ;; '/' k ']'").

(** ** The primitives of the methods *)

Section KafkaBrokerApp.
Context {E : Type}.
Variable X : Collaborators E.
Local Abbreviation M := (@M E).

Definition set_conf (f : gmap string value → gmap string value) (a : App E) : App E :=
  {| conf := f (conf a); name := name a; node_name := node_name a; zk := zk a;
     kerberos := kerberos a; trace := trace a; ext := ext a |}.

Definition set_zk (h : option AppHandle) (a : App E) : App E :=
  {| conf := conf a; name := name a; node_name := node_name a; zk := h;
     kerberos := kerberos a; trace := trace a; ext := ext a |}.

Definition set_kerberos (k : option (string * string)) (a : App E) : App E :=
  {| conf := conf a; name := name a; node_name := node_name a; zk := zk a;
     kerberos := k; trace := trace a; ext := ext a |}.

Definition set_world (t : list event) (w : E) (a : App E) : App E :=
  {| conf := conf a; name := name a; node_name := node_name a; zk := zk a;
     kerberos := kerberos a; trace := t; ext := w |}.

(** [self.conf.get(k, d)] *)
Definition conf_get (k : string) (d : value) : M value :=
  λ a, (a, inr (default d (conf a !! k))).

(** [self.conf[k]] *)
Definition conf_item (k : string) : M value :=
  λ a, match conf a !! k with
       | Some v => (a, inr v)
       | None => (a, inl (KeyError k))
       end.

(** [self.conf[k] = v] *)
Definition conf_store (k : string) (v : value) : M unit :=
  λ a, (set_conf (insert k v) a, inr tt).

(** [k in self.conf] *)
Definition conf_has (k : string) : M bool :=
  λ a, (a, inr (bool_decide (is_Some (conf a !! k)))).

(** [self.get(k)] of the base class: the configuration value, [None]
    when there is none. *)
Definition get (k : string) : M value := conf_get k VNone.

(** A method of [str] applied to a value: only a [str] has it. *)
Definition str_method (v : value) : M string :=
  match v with
  | VStr s => ret s
  | _ => raise AttributeError
  end.

(** [len(v)] *)
Definition len (v : value) : M nat :=
  match v with
  | VStr s => ret (Py.len s)
  | _ => raise TypeError
  end.

(** ['%d' % v] *)
Definition fmt_d (v : value) : M string :=
  match v with
  | VInt n => ret (Py.fmt_d n)
  | _ => raise TypeError
  end.

(** A path component handed to [os.path.join]. *)
Definition path_arg (v : value) : M string :=
  match v with
  | VStr s => ret s
  | _ => raise TypeError
  end.

(** An event is appended to the trace. *)
Definition emit (ev : event) : M unit :=
  λ a, (set_world (trace a ++ [ev]) (ext a) a, inr tt).

Definition dbg (fmt : string) (args : list fmt_arg) : M unit := emit (Dbg fmt args).
Definition log (msg : string) : M unit := emit (Log msg).
Definition env_add (var : string) (val : value) : M unit := emit (EnvAdd var val).

(** A call of a collaborator: the event, then the call on the external
    state. *)
Definition call {A} (ev : event) (f : E → E * (exn + A)) : M A :=
  λ a, let '(w, r) := f (ext a) in (set_world (trace a ++ [ev]) w a, r).

(** [self.zk = h] and [self.kerberos_principal, self.kerberos_keytab = k] *)
Definition zk_store (h : option AppHandle) : M unit :=
  λ a, (set_zk h a, inr tt).

Definition kerberos_store (k : string * string) : M unit :=
  λ a, (set_kerberos (Some k) a, inr tt).

Fixpoint mapM {A B} (f : A → M B) (l : list A) : M (list B) :=
  match l with
  | [] => ret []
  | x :: l' => y <~ f x; ys <~ mapM f l'; ret (y :: ys)
  end.

Fixpoint foldM {A B} (f : B → A → M B) (b : B) (l : list A) : M B :=
  match l with
  | [] => ret b
  | x :: l' => b' <~ f b x; foldM f b' l'
  end.

(** An attribute read on the object. *)
Definition attr {A} (f : App E → A) : M A := λ a, (a, inr (f a)).

(** [h.conf] on the result of [find_app]: [None] has no attributes. *)
Definition handle_conf (h : option AppHandle) : M (gmap string value) :=
  match h with
  | Some h => ret (app_conf h)
  | None => raise AttributeError
  end.

(** [d[k]] on a dict. *)
Definition item (d : gmap string value) (k : string) : M value :=
  match d !! k with
  | Some v => ret v
  | None => raise (KeyError k)
  end.

(** [os.system(cmd)] *)
Definition system (cmd : string) : M Z :=
  call (System cmd) (λ w, let '(w', r) := os_system X cmd w in (w', inr r)).

(** ** The constructor [KafkaBrokerApp.__init__]

    The object the definitions start from is the one the base constructor
    [trivup.App.__init__] leaves: [conf] holds the caller's configuration
    and what the base class adds to it. The body is cut into the blocks its
    comments announce. *)

(** Lines 32-34: the Zookeeper application of the cluster is required. *)
Definition resolve_zookeeper : M unit :=
  h <~ attr (λ a, find_app X (ByName "ZookeeperApp") (ext a));
  zk_store h ;;
  match h with
  | None => raise (Exception "ZookeeperApp required")
  | Some _ => ret tt
  end.

(** Lines 37-38: master is called trunk. *)
Definition normalise_version : M unit :=
  v <~ conf_item "version";
  if decide (v = VStr "master") then conf_store "version" (VStr "trunk")
  else ret tt.

(** Line 50: the SASL mechanisms of a CSV. *)
Definition parse_sasl_mechs (csv : string) : list string :=
  filter (λ x, 0 < Py.len x) (Py.split "," (Py.remove_char " " csv)).

(** Lines 47-52: the requested listeners and SASL mechanisms. *)
Definition requested_listeners : M (list string * list string) :=
  l <~ conf_get "listeners" (VStr "PLAINTEXT");
  l <~ str_method l;
  let listeners := Py.split "," l in
  m <~ conf_get "sasl_mechanisms" (VStr EmptyString);
  m <~ str_method m;
  let sasl_mechs := parse_sasl_mechs m in
  let listeners :=
    if bool_decide (0 < length sasl_mechs)
    then listeners ++ ["SASL_PLAINTEXT"] else listeners in
  ret (listeners, sasl_mechs).

(** Line 55: one port per listener, in sorted order. *)
Definition allocate_ports (listeners : list string) : M (list (string * Z)) :=
  mapM (λ x, p <~ call PortNext (TcpPortAllocator_next X); ret (x, p))
       (Py.sorted_set listeners).

(** ['%s://%s:%d' % (x[0], self.node.name, x[1])] *)
Definition listener_url (host : string) (x : string * Z) : string :=
  x.1 +:+ "://" +:+ host +:+ ":" +:+ Py.fmt_d x.2.

(** Lines 56-60: default port, address and listener strings. *)
Definition publish_listeners (ports : list (string * Z)) : M unit :=
  match ports with
  | [] => raise IndexError
  | x :: _ => conf_store "port" (VInt x.2)
  end ;;
  nodename <~ conf_item "nodename";
  port <~ conf_item "port";
  port <~ fmt_d port;
  conf_store "address" (VStr (str nodename +:+ ":" +:+ port)) ;;
  host <~ attr node_name;
  conf_store "listeners" (VStr (Py.join "," (map (listener_url host) ports))) ;;
  l <~ conf_item "listeners";
  conf_store "advertised.listeners" l ;;
  l <~ conf_item "listeners";
  dbg "Listeners: %s" [AStr (str l)].

(** Line 77: one [user_<name>=<pass>] line of the PLAIN stanza. *)
Definition user_line (u p : string) : string :=
  "user_" +:+ u +:+ "=" +:+ Py.DQ +:+ p +:+ Py.DQ.

(** Lines 74-78: the PLAIN login module and its users. Unpacking
    [u,p = up.split('=')] needs exactly two fields. *)
Definition plain_users (sasl_users : string) (jaas_blob : list string) : M (list string) :=
  let jaas_blob := jaas_blob ++
    ["org.apache.kafka.common.security.plain.PlainLoginModule required debug=true"] in
  jaas_blob <~ foldM (λ jaas up,
      match Py.split "=" up with
      | [u; p] => ret (jaas ++ [user_line u p])
      | _ => raise ValueError
      end) jaas_blob (Py.split "," sasl_users);
  match Py.append_to_last jaas_blob ";" with
  | Some l => ret l
  | None => raise IndexError
  end.

(** Lines 70-78: PLAIN. *)
Definition sasl_plain (jaas_blob : list string) : M (list string) :=
  sasl_users <~ conf_get "sasl_users" (VStr EmptyString);
  n <~ len sasl_users;
  if bool_decide (n = 0) then
    log "WARNING: No sasl_users configured for PLAIN, expected CSV of user=pass,.." ;;
    ret jaas_blob
  else
    s <~ str_method sasl_users;
    plain_users s jaas_blob.

(** Lines 87-91: the Kerberos login module. *)
Definition krb5_stanza (principal keytab : string) : list string :=
  ["com.sun.security.auth.module.Krb5LoginModule required";
   "useKeyTab=true storeKey=true doNotPrompt=true";
   "keyTab=" +:+ Py.DQ +:+ keytab +:+ Py.DQ;
   "debug=true";
   "principal=" +:+ Py.DQ +:+ principal +:+ Py.DQ +:+ ";"].

(** Lines 81-91: GSSAPI. *)
Definition sasl_gssapi (conf_blob jaas_blob : list string) : M (list string * list string) :=
  let conf_blob := conf_blob ++ ["sasl.kerberos.service.name=" +:+ "kafka"] in
  kdc <~ attr (λ a, find_app X (ByClass "KerberosKdcApp") (ext a));
  c <~ handle_conf kdc;
  krb5 <~ item c "krb5_conf";
  env_add "KRB5_CONFIG" krb5 ;;
  c <~ handle_conf kdc;
  krb5 <~ item c "krb5_conf";
  env_add "KAFKA_OPTS" (VStr ("-Djava.security.krb5.conf=" +:+ str krb5)) ;;
  env_add "KAFKA_OPTS" (VStr "-Dsun.security.krb5.debug=true") ;;
  host <~ attr node_name;
  pk <~ match kdc with
        | Some h => call (AddPrincipal "kafka" host) (add_principal X h "kafka" host)
        | None => raise AttributeError
        end;
  kerberos_store pk ;;
  ret (conf_blob, jaas_blob ++ krb5_stanza pk.1 pk.2).

(** Lines 64-96: the SASL configuration; the result is [conf_blob]. The
    two blobs start empty (lines 41-42). *)
Definition configure_sasl (sasl_mechs : list string) : M (list string) :=
  if bool_decide (0 < length sasl_mechs) then
    dbg "SASL mechanisms: %s" [AList sasl_mechs] ;;
    let jaas_blob := ["KafkaServer {"] in
    let conf_blob := ["sasl.enabled.mechanisms=" +:+ Py.join "," sasl_mechs] in
    jaas_blob <~ (if Py.contains "PLAIN" sasl_mechs then sasl_plain jaas_blob
                  else ret jaas_blob);
    blobs <~ (if Py.contains "GSSAPI" sasl_mechs then sasl_gssapi conf_blob jaas_blob
              else ret (conf_blob, jaas_blob));
    let conf_blob := blobs.1 in
    let jaas_blob := blobs.2 ++ ["};" +:+ Py.LF] in
    let data := Py.join Py.LF jaas_blob in
    path <~ call (CreateFile "jaas_broker.conf" data) (create_file X "jaas_broker.conf" data);
    conf_store "jaas_file" (VStr path) ;;
    f <~ conf_item "jaas_file";
    env_add "KAFKA_OPTS" (VStr ("-Djava.security.auth.login.config=" +:+ str f)) ;;
    env_add "KAFKA_OPTS" (VStr "-Djava.security.debug=all") ;;
    ret conf_blob
  else ret [].

(** [if k not in self.conf: self.conf[k] = v] *)
Definition conf_setdefault (k : string) (v : value) : M unit :=
  b <~ conf_has k;
  if b then ret tt else conf_store k v.

(** Lines 118-121: the start script. *)
Definition start_script (kafka_path : value) : M string :=
  if truthy kafka_path then
    p <~ path_arg kafka_path;
    ret (Py.path_join p ["bin"; "kafka-server-start.sh"])
  else ret "kafka-server-start.sh".

(** Lines 100-124: properties, configuration files and commands. The
    address of Zookeeper is read with the [get] of the base class. *)
Definition configure_properties (conf_blob : list string) (kafka_path : value) : M unit :=
  d <~ call (CreateDir "logs") (create_dir X "logs");
  conf_store "log_dirs" (VStr d) ;;
  conf_setdefault "num_partitions" (VInt 3) ;;
  z <~ attr zk;
  c <~ handle_conf z;
  conf_store "zk_connect" (default VNone (c !! "address")) ;;
  conf_setdefault "replication_factor" (VInt 1) ;;
  c <~ attr conf;
  let append_data := Some (Py.join Py.LF conf_blob) in
  f <~ call (CreateFileFromTemplate "server.properties" c append_data None)
            (create_file_from_template X "server.properties" c append_data None);
  conf_store "conf_file" (VStr f) ;;
  c <~ attr conf;
  f <~ call (CreateFileFromTemplate "log4j.properties" c None (Some false))
            (create_file_from_template X "log4j.properties" c None (Some false));
  conf_store "log4j_file" (VStr f) ;;
  f <~ conf_item "log4j_file";
  env_add "KAFKA_LOG4J_OPTS" (VStr ("-Dlog4j.configuration=file:" +:+ str f)) ;;
  start_sh <~ start_script kafka_path;
  f <~ conf_item "conf_file";
  conf_store "start_cmd" (VStr (start_sh +:+ " " +:+ str f)) ;;
  conf_store "stop_cmd" VNone.

(** Lines 32-124. *)
Definition __init__ (kafka_path : value) : M unit :=
  resolve_zookeeper ;;
  normalise_version ;;
  ls <~ requested_listeners;
  ports <~ allocate_ports ls.1;
  publish_listeners ports ;;
  conf_store "kafka_path" kafka_path ;;
  conf_blob <~ configure_sasl ls.2;
  configure_properties conf_blob kafka_path.

(** ** [operational] (lines 126-129) *)
Definition operational : M bool :=
  dbg "Checking if operational" [] ;;
  a <~ get "address";
  a <~ str_method a;
  r <~ system ("(echo anything | nc " +:+ Py.join " " (Py.split ":" a) +:+ ") 2>/dev/null");
  ret (bool_decide (r = 0%Z)).

(** ** [deploy] (lines 132-151) *)

(** Lines 141-142: the deploy command. *)
Definition deploy_cmd (deploy_exec : string) (version kafka_path : value) (destdir : string) : string :=
  deploy_exec +:+ " " +:+ str version +:+ " " +:+ Py.DQ +:+ str kafka_path +:+ Py.DQ
    +:+ " " +:+ Py.DQ +:+ destdir +:+ Py.DQ.

(** Line 145: the message of the exception. *)
Definition deploy_failure (cmd : string) (r : Z) : string :=
  "Deploy " +:+ Py.DQ +:+ cmd +:+ Py.DQ +:+ " returned exit code " +:+ Py.fmt_d r.

Definition deploy : M unit :=
  root <~ call (MkPath "KafkaBrokerApp") (mkpath X "KafkaBrokerApp");
  v <~ get "version";
  v <~ path_arg v;
  let destdir := Py.path_join root ["kafka"; v] in
  n <~ attr name;
  v <~ get "version";
  host <~ attr node_name;
  dbg "Deploy %s version %s on %s to %s" [AStr n; AStr (str v); AStr host; AStr destdir] ;;
  deploy_exec <~ attr (λ a, resource_path X "deploy.sh" (ext a));
  present <~ attr (λ a, os_path_exists X deploy_exec (ext a));
  (if present then ret tt
   else raise (NotImplementedError ("Kafka deploy.sh script missing in " +:+ deploy_exec))) ;;
  t_start <~ attr (λ a, time_time X (ext a));
  v <~ get "version";
  k <~ get "kafka_path";
  let cmd := deploy_cmd deploy_exec v k destdir in
  r <~ system cmd;
  (if bool_decide (r ≠ 0%Z) then raise (Exception (deploy_failure cmd r)) else ret tt) ;;
  v <~ get "version";
  t_now <~ attr (λ a, time_time X (ext a));
  dbg "Deployed version %s in %ds" [AStr (str v); ASeconds t_start t_now] ;;
  f <~ conf_item "conf_file";
  conf_store "start_cmd" (VStr (destdir +:+ "/bin/kafka-server-start.sh " +:+ str f)) ;;
  c <~ conf_item "start_cmd";
  dbg "Updated start_cmd to %s" [AStr (str c)].

End KafkaBrokerApp.

(** ** A small cluster to run the methods on

    Ports are handed out from a counter, files are created under [/tmp];
    the cluster has a Zookeeper and a KDC application when the flags say so,
    and [os.system] returns [exit_code]. *)
Module Demo.

Definition zookeeper : AppHandle :=
  {| app_conf := {[ "address" := VStr "localhost:2181" ]} |}.

Definition kdc : AppHandle :=
  {| app_conf := {[ "krb5_conf" := VStr "/tmp/krb5.conf" ]} |}.

Definition cluster (has_zk has_kdc : bool) (exit_code : Z) : Collaborators Z := {|
  find_app r _ :=
    match r with
    | ByName "ZookeeperApp" => if has_zk then Some zookeeper else None
    | ByClass "KerberosKdcApp" => if has_kdc then Some kdc else None
    | _ => None
    end;
  TcpPortAllocator_next w := ((w + 1)%Z, inr w);
  add_principal _ service host w :=
    (w, inr (service +:+ "/" +:+ host +:+ "@REALM", "/tmp/" +:+ service +:+ ".keytab"));
  create_file name _ w := (w, inr ("/tmp/" +:+ name));
  create_dir name w := (w, inr ("/tmp/" +:+ name));
  create_file_from_template name _ _ _ w := (w, inr ("/tmp/" +:+ name));
  mkpath name w := (w, inr ("/tmp/" +:+ name));
  resource_path name _ := "/res/" +:+ name;
  os_path_exists _ _ := true;
  os_system _ w := (w, exit_code);
  time_time _ := 0%Z
|}.

(** The object the base constructor leaves for the configuration [c]. *)
Definition app (c : gmap string value) : App Z :=
  {| conf := <["nodename" := VStr "localhost"]> c;
     name := "KafkaBrokerApp"; node_name := "localhost";
     zk := None; kerberos := None; trace := []; ext := 9092%Z |}.

End Demo.

(** ** Vocabulary of the statements *)

(** The characters of a string. *)
Fixpoint chars (s : string) : list ascii :=
  match s with
  | EmptyString => []
  | String c s' => c :: chars s'
  end.

(** The strict character-wise order of [str]. *)
Definition str_lt : relation string := strict String.le.

(** The lines of a text. *)
Definition lines (data : string) : list string := Py.split "010" data.

(** [p] is a prefix of [s]. *)
Fixpoint is_prefix (p s : string) : bool :=
  match p, s with
  | EmptyString, _ => true
  | String c p', String d s' => bool_decide (c = d) && is_prefix p' s'
  | String _ _, EmptyString => false
  end.

(** The [user_*] lines of a login block. *)
Definition user_lines (data : string) : list string :=
  filter (λ l, is_prefix "user_" l) (lines data).

Section Logic.
Context {E : Type}.

(** Weakest precondition of a method body: [Q] for a result, [R] for an
    exception. *)
Definition wp {A} (m : M A) (Q : A → App E → Prop) (R : exn → App E → Prop)
    (a : App E) : Prop :=
  match m a with
  | (a', inr x) => Q x a'
  | (a', inl e) => R e a'
  end.

(** [a'] comes after [a]: the configuration differs on the keys [K] at
    most, the trace has grown, and the attributes set before the body runs
    are the same. *)
Definition extends (K : list string) (a a' : App E) : Prop :=
  (∀ k, k ∉ K → conf a' !! k = conf a !! k)
  ∧ trace a `prefix_of` trace a'
  ∧ node_name a' = node_name a
  ∧ name a' = name a
  ∧ zk a' = zk a.

(** A body that stores under the keys [K] at most, whatever its outcome. *)
Definition modifies (K : list string) {A} (m : M A) : Prop :=
  ∀ a a' r, m a = (a', r) → extends K a a'.

(** A collaborator call that always returns. *)
Definition never_raises {A} (f : E → E * (exn + A)) : Prop :=
  ∀ w, ∃ w' x, f w = (w', inr x).

(** Collaborators that never fail on the calls of the constructor. *)
Record cooperative (X : Collaborators E) : Prop := {
  ports_ok : never_raises (TcpPortAllocator_next X);
  files_ok : ∀ n d, never_raises (create_file X n d);
  dirs_ok : ∀ n, never_raises (create_dir X n);
  templates_ok : ∀ n c d s, never_raises (create_file_from_template X n c d s);
  principals_ok : ∀ h s n, never_raises (add_principal X h s n)
}.

(** The keys the constructor stores under up to the publication of the
    listeners, and after it. *)
Definition early_keys : list string :=
  ["version"; "port"; "address"; "listeners"; "advertised.listeners"].


Definition late_keys : list string :=
  ["kafka_path"; "jaas_file"; "log_dirs"; "num_partitions"; "zk_connect";
   "replication_factor"; "conf_file"; "log4j_file"; "start_cmd"; "stop_cmd"].

End Logic.

(** The data of the files created under a name, oldest first. *)
Definition files_named {E} (n : string) (a : App E) : list string :=
  omap (λ ev, match ev with
              | CreateFile n' d => if decide (n' = n) then Some d else None
              | _ => None
              end) (trace a).

(** The constructor in two parts. The first one runs up to the publication
    of the listeners (lines 32-60) and gives the values of the local
    variables [sasl_mechs] and [ports]; the second one is the rest (lines
    62-124). *)
Definition listeners_phase {E} (X : Collaborators E) : M (list string * list (string * Z)) :=
  resolve_zookeeper X ;;
  normalise_version ;;
  ls <~ requested_listeners;
  ports <~ allocate_ports X ls.1;
  publish_listeners ports ;;
  ret (ls.2, ports).

Definition sasl_phase {E} (X : Collaborators E) (kafka_path : value) (mechs : list string) : @M E unit :=
  conf_store "kafka_path" kafka_path ;;
  conf_blob <~ configure_sasl X mechs;
  configure_properties X conf_blob kafka_path.

(** The listeners asked for: the fields of the listener CSV, and
    [SASL_PLAINTEXT] when the mechanism CSV gives a mechanism. *)
Definition wanted_listeners (lcsv mcsv : string) : list string :=
  Py.split "," lcsv ++
  (if bool_decide (0 < length (parse_sasl_mechs mcsv)) then ["SASL_PLAINTEXT"] else []).

(** What the first part of the constructor has done when it returns
    [(mechs, ports)] in [a1], started in [a]. *)
Record published {E} (X : Collaborators E) (a a1 : App E) (mechs : list string) (ports : list (string * Z)) : Prop := {
  pub_listeners : ∃ lcsv mcsv,
    default (VStr "PLAINTEXT") (conf a !! "listeners") = VStr lcsv ∧
    default (VStr EmptyString) (conf a !! "sasl_mechanisms") = VStr mcsv ∧
    mechs = parse_sasl_mechs mcsv ∧
    ports.*1 = Py.sorted_set (wanted_listeners lcsv mcsv);
  pub_zk : ∃ h, find_app X (ByName "ZookeeperApp") (ext a) = Some h ∧ zk a1 = Some h;
  pub_port : ∃ x rest nodename, ports = x :: rest ∧
    conf a !! "nodename" = Some nodename ∧
    conf a1 !! "port" = Some (VInt x.2) ∧
    conf a1 !! "address" = Some (VStr (str nodename +:+ ":" +:+ Py.fmt_d x.2));
  pub_urls : ∃ s, s = Py.join "," (map (listener_url (node_name a)) ports) ∧
    conf a1 !! "listeners" = Some (VStr s) ∧
    conf a1 !! "advertised.listeners" = Some (VStr s);
  pub_version : ∃ v, conf a !! "version" = Some v ∧
    conf a1 !! "version" = Some (if decide (v = VStr "master") then VStr "trunk" else v);
  pub_conf : ∀ k, k ∉ early_keys → conf a1 !! k = conf a !! k;
  pub_trace : ∃ s, conf a1 !! "listeners" = Some (VStr s) ∧
    trace a1 = trace a ++ replicate (length ports) PortNext ++ [Dbg "Listeners: %s" [AStr s]];
  pub_node : node_name a1 = node_name a
}.

(** Why the first part of the constructor can raise. *)
Definition phase_failure {E} (X : Collaborators E) (a : App E) : Prop :=
  find_app X (ByName "ZookeeperApp") (ext a) = None
  ∨ conf a !! "version" = None
  ∨ (∀ s, default (VStr "PLAINTEXT") (conf a !! "listeners") ≠ VStr s)
  ∨ (∀ s, default (VStr EmptyString) (conf a !! "sasl_mechanisms") ≠ VStr s)
  ∨ ¬ never_raises (TcpPortAllocator_next X)
  ∨ conf a !! "nodename" = None.

(** *** The SASL configuration *)

(** The entries of a user CSV as (user, password) pairs, when every entry
    has exactly two fields around [=]. *)
Fixpoint parse_users (entries : list string) : option (list (string * string)) :=
  match entries with
  | [] => Some []
  | up :: l =>
      match Py.split "=" up with
      | [u; p] => cons (u, p) <$> parse_users l
      | _ => None
      end
  end.

(** A semicolon after the last line. *)
Fixpoint terminated (l : list string) : list string :=
  match l with
  | [] => []
  | [x] => [x +:+ ";"]
  | x :: l' => x :: terminated l'
  end.

Definition plain_module : string :=
  "org.apache.kafka.common.security.plain.PlainLoginModule required debug=true".

Definition warning : string :=
  "WARNING: No sasl_users configured for PLAIN, expected CSV of user=pass,..".

(** The PLAIN stanza of the users. *)
Definition plain_stanza (ups : list (string * string)) : list string :=
  terminated (plain_module :: map (λ x, user_line x.1 x.2) ups).

(** What the PLAIN step gives for the value of [sasl_users]: an exception,
    or the lines added to the login block and the events. *)
Definition plain_result (mechs : list string) (users : value)
    : exn + (list string * list event) :=
  if Py.contains "PLAIN" mechs then
    match users with
    | VStr EmptyString => inr ([], [Log warning])
    | VStr s =>
        match parse_users (Py.split "," s) with
        | Some ups => inr (plain_stanza ups, [])
        | None => inl ValueError
        end
    | _ => inl TypeError
    end
  else inr ([], []).

(** The text of the login file. *)
Definition jaas_data (stanzas : list string) : string :=
  Py.join Py.LF (["KafkaServer {"] ++ stanzas ++ ["};" +:+ Py.LF]).
(** The events of the GSSAPI step. *)
Definition gssapi_events (krb5 : value) (host : string) : list event :=
  [EnvAdd "KRB5_CONFIG" krb5;
   EnvAdd "KAFKA_OPTS" (VStr ("-Djava.security.krb5.conf=" +:+ str krb5));
   EnvAdd "KAFKA_OPTS" (VStr "-Dsun.security.krb5.debug=true");
   AddPrincipal "kafka" host].

(** The events that end the SASL configuration: the login file and the
    options that point to it. *)
Definition jaas_events (data path : string) : list event :=
  [CreateFile "jaas_broker.conf" data;
   EnvAdd "KAFKA_OPTS" (VStr ("-Djava.security.auth.login.config=" +:+ path));
   EnvAdd "KAFKA_OPTS" (VStr "-Djava.security.debug=all")].

(** An event is added to the trace of an object. *)
Definition logged {E} (evs : list event) (a : App E) : App E :=
  set_world (trace a ++ evs) (ext a) a.
(** The GSSAPI step of the SASL configuration. *)
Definition gssapi_step {E} (X : Collaborators E) (mechs conf_blob jaas_blob : list string)
    : @M E (list string * list string) :=
  if Py.contains "GSSAPI" mechs then sasl_gssapi X conf_blob jaas_blob
  else ret (conf_blob, jaas_blob).

Definition mechanisms_line (mechs : list string) : string :=
  "sasl.enabled.mechanisms=" +:+ Py.join "," mechs.

(** *** The properties and the commands *)

(** [if k not in c: c[k] = v] on a dict. *)
Definition setdefault (k : string) (v : value) (c : gmap string value) : gmap string value :=
  if bool_decide (is_Some (c !! k)) then c else <[k:=v]> c.

(** The configuration the templates are rendered from: log directory,
    partitions, Zookeeper address and replication factor added. *)
Definition with_properties (log_dirs : string) (zk_address : value)
    (c : gmap string value) : gmap string value :=
  setdefault "replication_factor" (VInt 1)
    (<["zk_connect" := zk_address]>
       (setdefault "num_partitions" (VInt 3) (<["log_dirs" := VStr log_dirs]> c))).

(** The start script of a construction that returns. *)
Definition start_sh (kafka_path : value) : string :=
  match kafka_path with
  | VStr s =>
      if bool_decide (s = EmptyString) then "kafka-server-start.sh"
      else Py.path_join s ["bin"; "kafka-server-start.sh"]
  | _ => "kafka-server-start.sh"
  end.

(** The events of the last block of the constructor. *)
Definition properties_events (c : gmap string value) (conf_blob : list string)
    (conf_file log4j_file : string) : list event :=
  [CreateDir "logs";
   CreateFileFromTemplate "server.properties" c (Some (Py.join Py.LF conf_blob)) None;
   CreateFileFromTemplate "log4j.properties" (<["conf_file" := VStr conf_file]> c)
     None (Some false);
   EnvAdd "KAFKA_LOG4J_OPTS" (VStr ("-Dlog4j.configuration=file:" +:+ log4j_file))].

(** Every occurrence of a character replaced by another one. *)
Fixpoint replace_char (c d : ascii) (s : string) : string :=
  match s with
  | EmptyString => EmptyString
  | String e s' => String (if decide (e = c) then d else e) (replace_char c d s')
  end.

(** The probe command of [operational] for an address. *)
Definition probe_cmd (address : string) : string :=
  "(echo anything | nc " +:+ replace_char ":" " " address +:+ ") 2>/dev/null".

(** The answers of the port allocator to [n] calls in a row from the
    external state [w], oldest first, and the state after the last call;
    [None] when one of the calls raises. *)
Fixpoint next_ports {E} (X : Collaborators E) (n : nat) (w : E) : option (list Z * E) :=
  match n with
  | O => Some ([], w)
  | S n' =>
      match TcpPortAllocator_next X w with
      | (w', inr p) =>
          match next_ports X n' w' with
          | Some (ps, w'') => Some (p :: ps, w'')
          | None => None
          end
      | (_, inl _) => None
      end
  end.

(** *** The claims the code does not keep, in the words of the
    specification *)

(** The horizontal tab. *)
Definition TAB : string := String "009"%char EmptyString.

(** White space stripped at the start of a string, and at both ends. *)
Fixpoint lstrip (s : string) : string :=
  match s with
  | String c s' => if Ascii.is_space c then lstrip s' else s
  | EmptyString => EmptyString
  end.

Definition strip (s : string) : string :=
  String.rev (lstrip (String.rev (lstrip s))).

(** The SASL mechanisms of a CSV in the words of the specification: white
    space is stripped and empty entries are dropped. *)
Definition spec_sasl_mechs (csv : string) : list string :=
  filter (λ x, x ≠ EmptyString) (strip <$> Py.split "," csv).

(** The listener set in the words of the specification: the sorted union,
    without duplicates, of the listeners of the CSV and of
    [SASL_PLAINTEXT], which is there when a mechanism was requested. *)
Definition spec_listener_set (lcsv mcsv : string) : list string :=
  Py.sorted_set
    (Py.split "," lcsv ++
     (if decide (spec_sasl_mechs mcsv = []) then [] else ["SASL_PLAINTEXT"])).

Definition listener_set_as_specified {E} (X : Collaborators E) (a : App E) : Prop :=
  ∀ a1 mechs ports lcsv mcsv,
    listeners_phase X a = (a1, inr (mechs, ports)) →
    default (VStr "PLAINTEXT") (conf a !! "listeners") = VStr lcsv →
    default (VStr EmptyString) (conf a !! "sasl_mechanisms") = VStr mcsv →
    ports.*1 = spec_listener_set lcsv mcsv.

(** C3 in the words of the specification: PLAIN without users. *)
Definition plain_without_users_as_specified {E} (X : Collaborators E) kp (a : App E) : Prop :=
  conf a !! "sasl_mechanisms" = Some (VStr "PLAIN") →
  conf a !! "sasl_users" = Some (VStr EmptyString) →
  ∃ a', __init__ X kp a = (a', inr tt)
        ∧ Log warning ∈ trace a'
        ∧ files_named "jaas_broker.conf" a' = [].

(** C5 in the words of the specification: one stanza per mechanism, in
    the order of the mechanism CSV, inside one block. *)
Definition spec_stanza (ups : list (string * string)) (k : string * string)
    (m : string) : list string :=
  if decide (m = "PLAIN") then plain_stanza ups
  else if decide (m = "GSSAPI") then krb5_stanza k.1 k.2
  else [].

Definition spec_jaas (mechs : list string) (ups : list (string * string))
    (k : string * string) : string :=
  jaas_data (concat (spec_stanza ups k <$> mechs)).

Definition stanza_order_as_specified {E} (X : Collaborators E) kp (a : App E) : Prop :=
  ∀ a' mcsv ucsv ups k,
    conf a !! "sasl_mechanisms" = Some (VStr mcsv) →
    "PLAIN" ∈ parse_sasl_mechs mcsv →
    "GSSAPI" ∈ parse_sasl_mechs mcsv →
    conf a !! "sasl_users" = Some (VStr ucsv) →
    parse_users (Py.split "," ucsv) = Some ups →
    __init__ X kp a = (a', inr tt) →
    kerberos a' = Some k →
    spec_jaas (parse_sasl_mechs mcsv) ups k ∈ files_named "jaas_broker.conf" a'.
(** ** The built-ins on small inputs *)

Example split_csv : Py.split "," "SSL,,PLAINTEXT" = ["SSL"; EmptyString; "PLAINTEXT"].
Proof. reflexivity. Qed.

Example split_empty : Py.split "," EmptyString = [EmptyString].
Proof. reflexivity. Qed.

Example sorted_set_listeners :
  Py.sorted_set ["SSL"; "PLAINTEXT"; "SSL"; "SASL_PLAINTEXT"] = ["PLAINTEXT"; "SASL_PLAINTEXT"; "SSL"].
Proof. vm_compute. reflexivity. Qed.

Example fmt_d_port : Py.fmt_d 9092 = "9092".
Proof. reflexivity. Qed.

Example path_join_bin :
  Py.path_join "/opt/kafka/" ["bin"; "kafka-server-start.sh"] = "/opt/kafka/bin/kafka-server-start.sh".
Proof. reflexivity. Qed.

(** ** The monad and its weakest preconditions *)

Section Rules.
Context {E : Type} (X : Collaborators E).
Implicit Types a : App E.

Lemma wp_elim {A} (m : M A) Q R a a' r :
  m a = (a', r) → wp m Q R a →
  match r with inr x => Q x a' | inl e => R e a' end.
Proof. unfold wp. intros ->. done. Qed.

Lemma wp_run {A} (m : M A) Q R a :
  (∀ a' r, m a = (a', r) → match r with inr x => Q x a' | inl e => R e a' end) →
  wp m Q R a.
Proof. unfold wp. intros H. destruct (m a) as [a' r] eqn:Hm. by apply (H a' r). Qed.

Lemma wp_mono {A} (m : M A) (Q Q' : A → App E → Prop) (R R' : exn → App E → Prop) a :
  wp m Q R a → (∀ x a', Q x a' → Q' x a') → (∀ e a', R e a' → R' e a') →
  wp m Q' R' a.
Proof. unfold wp. destruct (m a) as [a' [e|x]]; eauto. Qed.

Lemma wp_bind {A B} (m : M A) (f : A → M B) Q R a :
  wp m (λ x a', wp (f x) Q R a') R a → wp (bind m f) Q R a.
Proof. unfold wp, bind. by destruct (m a) as [a' [e|x]]. Qed.

Lemma wp_ret {A} (x : A) (Q : A → App E → Prop) R a : Q x a → wp (ret x) Q R a.
Proof. done. Qed.

Lemma wp_raise {A} e (Q : A → App E → Prop) (R : exn → App E → Prop) a :
  R e a → wp (raise e) Q R a.
Proof. done. Qed.

Lemma wp_attr {A} (f : App E → A) (Q : A → App E → Prop) R a :
  Q (f a) a → wp (attr f) Q R a.
Proof. done. Qed.

Lemma wp_conf_get k d (Q : value → App E → Prop) R a :
  Q (default d (conf a !! k)) a → wp (conf_get k d) Q R a.
Proof. done. Qed.

Lemma wp_conf_item k (Q : value → App E → Prop) (R : exn → App E → Prop) a :
  match conf a !! k with Some v => Q v a | None => R (KeyError k) a end →
  wp (conf_item k) Q R a.
Proof. unfold wp, conf_item. by destruct (conf a !! k). Qed.

Lemma wp_conf_store k v (Q : unit → App E → Prop) R a :
  Q tt (set_conf (insert k v) a) → wp (conf_store k v) Q R a.
Proof. done. Qed.

Lemma wp_conf_has k (Q : bool → App E → Prop) R a :
  Q (bool_decide (is_Some (conf a !! k))) a → wp (conf_has k) Q R a.
Proof. done. Qed.

Lemma wp_zk_store h (Q : unit → App E → Prop) R a :
  Q tt (set_zk h a) → wp (zk_store h) Q R a.
Proof. done. Qed.

Lemma wp_emit ev (Q : unit → App E → Prop) R a :
  Q tt (set_world (trace a ++ [ev]) (ext a) a) → wp (emit ev) Q R a.
Proof. done. Qed.

Lemma wp_call {A} ev (f : E → E * (exn + A)) (Q : A → App E → Prop)
    (R : exn → App E → Prop) a :
  (∀ w r, f (ext a) = (w, r) →
     match r with
     | inr x => Q x (set_world (trace a ++ [ev]) w a)
     | inl e => R e (set_world (trace a ++ [ev]) w a)
     end) →
  wp (call ev f) Q R a.
Proof.
  unfold wp, call. intros H. destruct (f (ext a)) as [w r] eqn:Hf.
  by apply (H w r).
Qed.

Lemma wp_total {A} (m : @M E A) a :
  wp m (λ _ _, True) (λ _ _, False) a → ∃ a' x, m a = (a', inr x).
Proof. unfold wp. destruct (m a) as [a' [e|x]]; [done|eauto]. Qed.

Lemma wp_call_total {A} ev (f : E → E * (exn + A)) (Q : A → App E → Prop) R a :
  never_raises f →
  (∀ w x, Q x (set_world (trace a ++ [ev]) w a)) →
  wp (call ev f) Q R a.
Proof.
  intros Hf HQ. apply wp_call. intros w r Hr.
  destruct (Hf (ext a)) as (w' & x & Hx). rewrite Hx in Hr.
  injection Hr as <- <-. apply HQ.
Qed.

Lemma wp_modifies K {A} (m : M A) (Q : A → App E → Prop) (R : exn → App E → Prop) a :
  modifies K m →
  (∀ x a', extends K a a' → Q x a') → (∀ e a', extends K a a' → R e a') →
  wp m Q R a.
Proof.
  intros Hm HQ HR. apply wp_run. intros a' [e|x] Hr; eauto.
Qed.

End Rules.

(** ** Frames: what a body leaves alone *)

Section Frames.
Context {E : Type} (X : Collaborators E).
Implicit Types a : App E.

Lemma extends_refl K a : extends K a a.
Proof. by repeat split. Qed.

Lemma extends_trans K a1 a2 a3 : extends K a1 a2 → extends K a2 a3 → extends K a1 a3.
Proof.
  intros (Hc1 & Ht1 & Hn1 & Hm1 & Hz1) (Hc2 & Ht2 & Hn2 & Hm2 & Hz2).
  repeat split; [|by etrans|congruence..].
  intros k Hk. by rewrite Hc2, Hc1.
Qed.

Lemma modifies_ret K {A} (x : A) : modifies K (ret (E:=E) x).
Proof. intros a a' r [= <- <-]. apply extends_refl. Qed.

Lemma modifies_raise K {A} e : modifies K (raise (E:=E) (A:=A) e).
Proof. intros a a' r [= <- <-]. apply extends_refl. Qed.

Lemma modifies_bind K {A B} (m : @M E A) (f : A → @M E B) :
  modifies K m → (∀ x, modifies K (f x)) → modifies K (bind m f).
Proof.
  intros Hm Hf a a' r. unfold bind.
  destruct (m a) as [a1 [e|x]] eqn:H1.
  - intros [= <- <-]. eauto.
  - intros H2. eapply extends_trans; eauto. by eapply Hf.
Qed.

Lemma modifies_attr K {A} (f : App E → A) : modifies K (attr f).
Proof. intros a a' r [= <- <-]. apply extends_refl. Qed.

Lemma modifies_conf_get K k d : modifies K (conf_get (E:=E) k d).
Proof. intros a a' r [= <- <-]. apply extends_refl. Qed.

Lemma modifies_conf_item K k : modifies K (conf_item (E:=E) k).
Proof.
  intros a a' r. unfold conf_item.
  destruct (conf a !! k); intros [= <- <-]; apply extends_refl.
Qed.

Lemma modifies_conf_has K k : modifies K (conf_has (E:=E) k).
Proof. intros a a' r [= <- <-]. apply extends_refl. Qed.

Lemma modifies_conf_store K k v : k ∈ K → modifies K (conf_store (E:=E) k v).
Proof.
  intros Hk a a' r [= <- <-]. repeat split; try done.
  intros k' Hk'. cbn. apply lookup_insert_ne. by intros ->.
Qed.

Lemma modifies_emit K ev : modifies K (emit (E:=E) ev).
Proof.
  intros a a' r [= <- <-]. repeat split; try done. by apply prefix_app_r.
Qed.

Lemma modifies_call K {A} ev (f : E → E * (exn + A)) : modifies K (call ev f).
Proof.
  intros a a' r. unfold call. destruct (f (ext a)) as [w r'].
  intros [= <- <-]. repeat split; try done. by apply prefix_app_r.
Qed.

Lemma modifies_kerberos_store K k : modifies K (kerberos_store (E:=E) k).
Proof. intros a a' r [= <- <-]. by repeat split. Qed.

Lemma modifies_mapM K {A B} (f : A → @M E B) l :
  (∀ x, modifies K (f x)) → modifies K (mapM f l).
Proof.
  intros Hf. induction l as [|x l IH]; cbn [mapM].
  - apply modifies_ret.
  - apply modifies_bind; [done|]. intros y.
    apply modifies_bind; [done|]. intros ys. apply modifies_ret.
Qed.

Lemma modifies_foldM K {A B} (f : B → A → @M E B) l b :
  (∀ b x, modifies K (f b x)) → modifies K (foldM f b l).
Proof.
  intros Hf. revert b. induction l as [|x l IH]; intros b; cbn [foldM].
  - apply modifies_ret.
  - apply modifies_bind; [done|]. intros b'. apply IH.
Qed.

End Frames.

Ltac in_keys := apply (bool_decide_unpack _); vm_compute; exact I.

Ltac modifies_tac :=
  repeat first
    [ apply modifies_ret | apply modifies_raise | apply modifies_attr
    | apply modifies_conf_get | apply modifies_conf_item | apply modifies_conf_has
    | apply modifies_emit | apply modifies_call
    | apply modifies_kerberos_store
    | apply modifies_conf_store; in_keys
    | apply modifies_bind; [|intros ?]
    | apply modifies_mapM; intros ?
    | apply modifies_foldM; intros ? ?
    | match goal with
      | |- modifies _ (match ?x with _ => _ end) => destruct x
      end ].

Section BlockFrames.
Context {E : Type} (X : Collaborators E).

Lemma modifies_configure_sasl mechs : modifies late_keys (configure_sasl X mechs).
Proof.
  unfold configure_sasl, sasl_plain, sasl_gssapi, plain_users, dbg, log, env_add,
    len, str_method, handle_conf, item.
  modifies_tac.
Qed.

Lemma modifies_configure_properties blob kp :
  modifies late_keys (configure_properties X blob kp).
Proof.
  unfold configure_properties, conf_setdefault, start_script, handle_conf, path_arg, env_add.
  modifies_tac.
Qed.

End BlockFrames.

(** ** The first part of the constructor *)

Section Phase.
Context {E : Type} (X : Collaborators E).
Implicit Types a : App E.

Lemma init_phases kp a :
  __init__ X kp a = (x <~ listeners_phase X; sasl_phase X kp x.1) a.
Proof.
  unfold __init__, listeners_phase, sasl_phase, bind.
  destruct (resolve_zookeeper X a) as [a1 [e|[]]]; [done|].
  destruct (normalise_version a1) as [a2 [e|[]]]; [done|].
  destruct (requested_listeners a2) as [a3 [e|ls]]; [done|].
  destruct (allocate_ports X ls.1 a3) as [a4 [e|ports]]; [done|].
  destruct (publish_listeners ports a4) as [a5 [e|[]]]; [done|].
  done.
Qed.

Lemma allocate_ports_run l a a' r :
  allocate_ports X l a = (a', r) →
  extends [] a a' ∧
  match r with
  | inr ports => ports.*1 = Py.sorted_set l
                 ∧ trace a' = trace a ++ replicate (length ports) PortNext
  | inl _ => ¬ never_raises (TcpPortAllocator_next X)
  end.
Proof.
  unfold allocate_ports. generalize (Py.sorted_set l). clear l.
  intros l. revert a a' r. induction l as [|x l IH]; intros a a' r; cbn [mapM].
  - intros [= <- <-]. split; [apply extends_refl|]. split; [done|].
    cbn. by rewrite app_nil_r.
  - unfold bind at 1. unfold bind at 1. unfold call.
    destruct (TcpPortAllocator_next X (ext a)) as [w [e|p]] eqn:Hp.
    + intros [= <- <-]. split.
      * repeat split; try done. by apply prefix_app_r.
      * intros Hn. destruct (Hn (ext a)) as (w' & y & Hy). congruence.
    + cbn. unfold bind at 1.
      destruct (mapM _ l _) as [a2 [e|ps]] eqn:Hl; intros [= <- <-];
        apply IH in Hl as [Hext Hr]; (split; [|try done]).
      * eapply extends_trans; [|done]. repeat split; try done. by apply prefix_app_r.
      * eapply extends_trans; [|done]. repeat split; try done. by apply prefix_app_r.
      * destruct Hr as [Hr1 Hr2]. cbn. split; [by f_equal|].
        rewrite Hr2. cbn. by rewrite <- app_assoc.
Qed.


Lemma split_nonempty sep s : Py.split sep s ≠ [].
Proof. destruct s as [|c s]; cbn; [done|]. destruct (decide _); [done|]. by destruct (Py.split sep s). Qed.

Lemma sorted_set_elem x l : x ∈ Py.sorted_set l ↔ x ∈ l.
Proof.
  unfold Py.sorted_set. rewrite merge_sort_Permutation, elem_of_elements.
  apply elem_of_list_to_set.
Qed.

Lemma sorted_set_nonempty l : l ≠ [] → Py.sorted_set l ≠ [].
Proof.
  destruct l as [|x l]; [done|]. intros _ Hnil.
  assert (x ∈ Py.sorted_set (x :: l)) as Hx by (apply sorted_set_elem; left).
  rewrite Hnil in Hx. by apply elem_of_nil in Hx.
Qed.

Lemma wanted_listeners_if lcsv mcsv :
  (if bool_decide (0 < length (parse_sasl_mechs mcsv))
   then Py.split "," lcsv ++ ["SASL_PLAINTEXT"] else Py.split "," lcsv)
  = wanted_listeners lcsv mcsv.
Proof. unfold wanted_listeners. destruct (bool_decide _); [done|]. by rewrite app_nil_r. Qed.

End Phase.

(** One step of symbolic execution: the rule of the primitive at the head. *)
Ltac wp_prim :=
  lazymatch goal with
  | |- wp (bind _ _) _ _ _ => apply wp_bind
  | |- wp (ret _) _ _ _ => apply wp_ret
  | |- wp (raise _) _ _ _ => apply wp_raise
  | |- wp (attr _) _ _ _ => apply wp_attr
  | |- wp (conf_get _ _) _ _ _ => apply wp_conf_get
  | |- wp (conf_store _ _) _ _ _ => apply wp_conf_store
  | |- wp (conf_has _) _ _ _ => apply wp_conf_has
  | |- wp (zk_store _) _ _ _ => apply wp_zk_store
  | |- wp (emit _) _ _ _ => apply wp_emit
  end; cbv beta.

Section PhaseRun.
Context {E : Type} (X : Collaborators E).
Implicit Types a : App E.

Lemma listeners_phase_run a a1 r :
  listeners_phase X a = (a1, r) →
  match r with
  | inr x => published X a a1 x.1 x.2
  | inl _ => phase_failure X a
  end.
Proof.
  intros H. apply (wp_elim _ (λ x a1, published X a a1 x.1 x.2) (λ _ _, phase_failure X a)) in H;
    [done|]. clear H a1 r.
  unfold listeners_phase, resolve_zookeeper.
  repeat wp_prim.
  destruct (find_app X (ByName "ZookeeperApp") (ext a)) as [h|] eqn:Hzk; wp_prim;
    [|by left].
  unfold normalise_version. repeat wp_prim. apply wp_conf_item.
  cbn [conf set_zk].
  destruct (conf a !! "version") as [v|] eqn:Hv; [|by right; left].
  set (a0 := set_zk (Some h) a).
  assert (wp (E:=E) (if decide (v = VStr "master") then conf_store "version" (VStr "trunk") else ret ())
            (λ _ a', ∃ c, a' = set_conf (λ _, c) a0
               ∧ (∀ k, k ≠ "version" → c !! k = conf a !! k)
               ∧ c !! "version" = Some (if decide (v = VStr "master") then VStr "trunk" else v))
            (λ _ _, False) a0) as Hver.
  { destruct (decide _); wp_prim.
    - eexists. split; [done|]. split; [|by apply lookup_insert_eq].
      intros k Hk. cbn. by rewrite lookup_insert_ne.
    - exists (conf a). split; [by destruct a|done]. }
  cbv beta. eapply wp_mono; [exact Hver| |done]. clear Hver.
  intros _ a' (c & -> & Hc & Hcv). cbv beta.
  unfold requested_listeners. repeat wp_prim.
  cbn [conf set_conf]. rewrite !Hc by done.
  destruct (default (VStr "PLAINTEXT") (conf a !! "listeners")) as [lcsv| |] eqn:Hl;
    cbn [str_method]; wp_prim; [|by right; right; left; intros s; rewrite Hl..].
  repeat wp_prim. cbn [conf set_conf]. rewrite !Hc by done.
  destruct (default (VStr EmptyString) (conf a !! "sasl_mechanisms")) as [mcsv| |] eqn:Hm;
    cbn [str_method]; wp_prim; [|by right; right; right; left; intros s; rewrite Hm..].
  repeat wp_prim. cbn [fst snd].
  apply wp_run. intros a2 r Hports. apply allocate_ports_run in Hports as [Hext Hr].
  destruct r as [e|ports]; [by right; right; right; right; left|].
  destruct Hr as [Hr Htr].
  rewrite wanted_listeners_if in Hr.
  destruct Hext as (Hc2 & Ht2 & Hn2 & _ & Hz2). cbn in Hc2, Ht2, Hn2, Hz2.
  assert (∀ k, k ≠ "version" → conf a2 !! k = conf a !! k) as Hk.
  { intros k Hne. rewrite Hc2 by apply not_elem_of_nil. by apply Hc. }
  destruct ports as [|x rest].
  { exfalso. symmetry in Hr. revert Hr. apply sorted_set_nonempty.
    unfold wanted_listeners. pose proof (split_nonempty "," lcsv).
    by destruct (Py.split "," lcsv). }
  unfold publish_listeners. repeat wp_prim. apply wp_conf_item.
  cbn [conf set_conf]. rewrite lookup_insert_ne by done. rewrite Hk by done.
  destruct (conf a !! "nodename") as [nodename|] eqn:Hnode; [|by repeat right].
  wp_prim. apply wp_conf_item. cbn [conf set_conf]. rewrite lookup_insert_eq.
  cbn [fmt_d]. repeat wp_prim. apply wp_conf_item. cbn [conf set_conf].
  rewrite lookup_insert_eq. repeat wp_prim. apply wp_conf_item. cbn [conf set_conf].
  rewrite lookup_insert_ne, lookup_insert_eq by done.
  unfold dbg. repeat wp_prim.
  split; cbn [set_world set_conf conf node_name trace zk fst snd].
  - by exists lcsv, mcsv.
  - exists h. done.
  - exists x, rest, nodename. split_and!; [done|done|..].
    + by rewrite !lookup_insert_ne, lookup_insert_eq by done.
    + by rewrite !lookup_insert_ne, lookup_insert_eq by done.
  - eexists. split; [reflexivity|]. rewrite Hn2. split.
    + by rewrite lookup_insert_ne, lookup_insert_eq by done.
    + by rewrite lookup_insert_eq.
  - exists v. split; [done|]. rewrite !lookup_insert_ne by done.
    rewrite Hc2 by apply not_elem_of_nil. done.
  - intros k Hk'. unfold early_keys in Hk'.
    rewrite !lookup_insert_ne by (intros <-; apply Hk'; in_keys).
    apply Hk. intros ->; apply Hk'; in_keys.
  - eexists. split; [by rewrite lookup_insert_ne, lookup_insert_eq by done|].
    cbn in Htr. rewrite Htr. cbn. by rewrite <- app_assoc.
  - done.
Qed.

End PhaseRun.

(** ** The second part of the constructor *)

Section Sasl.
Context {E : Type} (X : Collaborators E).
Implicit Types a : App E.

Lemma append_to_last_terminated l :
  l ≠ [] → Py.append_to_last l ";" = Some (terminated l).
Proof.
  induction l as [|x [|y l] IH]; [done|done|]. intros _.
  change (cons x <$> Py.append_to_last (y :: l) ";" = Some (x :: terminated (y :: l))).
  by rewrite IH.
Qed.

Lemma terminated_cons x l : l ≠ [] → terminated (x :: l) = x :: terminated l.
Proof. by destruct l. Qed.

Lemma terminated_app l1 l2 : l2 ≠ [] → terminated (l1 ++ l2) = l1 ++ terminated l2.
Proof.
  intros Hl2. induction l1 as [|x l1 IH]; [done|].
  cbn [app]. rewrite terminated_cons, IH; [done|].
  intros [_ ?]%app_eq_nil. done.
Qed.

Lemma foldM_users jaas entries a :
  foldM (E:=E) (λ jaas up,
      match Py.split "=" up with
      | [u; p] => ret (jaas ++ [user_line u p])
      | _ => raise ValueError
      end) jaas entries a
  = match parse_users entries with
    | Some ups => (a, inr (jaas ++ map (λ x, user_line x.1 x.2) ups))
    | None => (a, inl ValueError)
    end.
Proof.
  revert jaas. induction entries as [|up l IH]; intros jaas; cbn [foldM parse_users].
  - by rewrite app_nil_r.
  - unfold bind. destruct (Py.split "=" up) as [|u [|p [|? ?]]]; try done.
    cbn. rewrite IH. destruct (parse_users l) as [ups|]; cbn; [|done].
    by rewrite <- app_assoc.
Qed.

Lemma plain_users_run s jaas a :
  plain_users (E:=E) s jaas a
  = match parse_users (Py.split "," s) with
    | Some ups => (a, inr (jaas ++ plain_stanza ups))
    | None => (a, inl ValueError)
    end.
Proof.
  unfold plain_users, bind. rewrite foldM_users.
  destruct (parse_users _) as [ups|]; [|done].
  rewrite <- app_assoc. cbn [app].
  rewrite append_to_last_terminated by (by destruct jaas).
  rewrite terminated_app by done. done.
Qed.

Lemma plain_step_run mechs jaas a :
  (if Py.contains "PLAIN" mechs then sasl_plain jaas else ret jaas) a
  = match plain_result mechs (default (VStr EmptyString) (conf a !! "sasl_users")) with
    | inl e => (a, inl e)
    | inr x => (set_world (trace a ++ x.2) (ext a) a, inr (jaas ++ x.1))
    end.
Proof.
  assert (∀ l : list string, (set_world (trace a ++ []) (ext a) a, inr (B:=list string) (A:=exn) (l ++ []))
     = (a, inr l)) as Hid.
  { intros l. rewrite !app_nil_r. by destruct a. }
  unfold plain_result. destruct (Py.contains "PLAIN" mechs); [|by rewrite Hid].
  unfold sasl_plain, bind, conf_get.
  destruct (default _ _) as [s| |]; cbn [len ret raise]; [|done..].
  destruct s as [|c s]; [by cbn; rewrite app_nil_r|].
  change (len (E:=E) (VStr (String c s)) a) with (a, inr (B:=nat) (A:=exn) (S (String.length s))).
  cbv beta iota. rewrite bool_decide_eq_false_2 by done.
  change (str_method (E:=E) (VStr (String c s)) a) with (a, inr (A:=exn) (String c s)).
  cbv beta iota.
  rewrite plain_users_run. destruct (parse_users _); [|done]. cbn [fst snd].
  by rewrite app_nil_r; destruct a.
Qed.

Lemma sasl_gssapi_run cb jb a a' r :
  sasl_gssapi X cb jb a = (a', r) →
  conf a' = conf a ∧ node_name a' = node_name a ∧ zk a' = zk a ∧ name a' = name a ∧
  match r with
  | inr x => ∃ h krb5 p k,
      find_app X (ByClass "KerberosKdcApp") (ext a) = Some h ∧
      app_conf h !! "krb5_conf" = Some krb5 ∧
      x = (cb ++ ["sasl.kerberos.service.name=kafka"], jb ++ krb5_stanza p k) ∧
      kerberos a' = Some (p, k) ∧
      trace a' = trace a ++ gssapi_events krb5 (node_name a)
  | inl e =>
      (find_app X (ByClass "KerberosKdcApp") (ext a) = None ∧ e = AttributeError ∧ a' = a)
      ∨ ∃ h, find_app X (ByClass "KerberosKdcApp") (ext a) = Some h ∧
          (app_conf h !! "krb5_conf" = None
           ∨ ¬ never_raises (add_principal X h "kafka" (node_name a)))
  end.
Proof.
  unfold sasl_gssapi, bind, attr, env_add, emit, kerberos_store, call.
  destruct (find_app X (ByClass "KerberosKdcApp") (ext a)) as [h|] eqn:Hk;
    cbn [handle_conf ret raise]; [|intros [= <- <-]; split_and!; try done; by left].
  unfold item. destruct (app_conf h !! "krb5_conf") as [krb5|] eqn:Hc;
    cbn [ret raise set_world set_conf ext trace node_name];
    [|intros [= <- <-]; split_and!; try done; right; exists h; split; [done|by left]].
  destruct (add_principal X h "kafka" (node_name a) (ext a)) as [w [e|[p k]]] eqn:Hp;
    intros [= <- <-]; cbn; split_and!; try done.
  - right. exists h. split; [done|]. right. intros Hn.
    destruct (Hn (ext a)) as (w' & y & Hy). congruence.
  - exists h, krb5, p, k. split_and!; try done. unfold gssapi_events.
    by rewrite <- !app_assoc.
Qed.

Lemma configure_sasl_none a : configure_sasl X [] a = (a, inr []).
Proof. done. Qed.

Lemma configure_sasl_run mechs a a' r :
  mechs ≠ [] → configure_sasl X mechs a = (a', r) →
  let a0 := logged [Dbg "SASL mechanisms: %s" [AList mechs]] a in
  match plain_result mechs (default (VStr EmptyString) (conf a !! "sasl_users")) with
  | inl e => r = inl e ∧ a' = a0
  | inr x =>
      ∃ a2 r2,
        gssapi_step X mechs [mechanisms_line mechs] (["KafkaServer {"] ++ x.1)
          (logged x.2 a0) = (a2, r2) ∧
        match r2 with
        | inl e => r = inl e ∧ a' = a2
        | inr blobs =>
            let data := Py.join Py.LF (blobs.2 ++ ["};" +:+ Py.LF]) in
            ∃ w rr, create_file X "jaas_broker.conf" data (ext a2) = (w, rr) ∧
              match rr with
              | inl e => r = inl e
              | inr path =>
                  r = inr blobs.1 ∧
                  conf a' = <["jaas_file" := VStr path]> (conf a2) ∧
                  trace a' = trace a2 ++ jaas_events data path ∧
                  node_name a' = node_name a2 ∧ zk a' = zk a2 ∧
                  kerberos a' = kerberos a2 ∧ name a' = name a2
              end
        end
  end.
Proof.
  intros Hne. unfold configure_sasl.
  rewrite bool_decide_eq_true_2 by (destruct mechs; [done|cbn; lia]).
  unfold bind at 1. unfold dbg, emit. cbv beta iota.
  fold (logged [Dbg "SASL mechanisms: %s" [AList mechs]] a).
  unfold bind at 1. rewrite plain_step_run.
  change (conf (logged [Dbg "SASL mechanisms: %s" [AList mechs]] a)) with (conf a).
  destruct (plain_result _ _) as [e|[pl evs]]; [by intros [= <- <-]|].
  cbn [fst snd]. fold (logged evs (logged [Dbg "SASL mechanisms: %s" [AList mechs]] a)).
  unfold bind at 1. unfold gssapi_step, mechanisms_line.
  match goal with
  | |- context [(if Py.contains "GSSAPI" mechs then ?f else ?g) ?x] =>
      destruct ((if Py.contains "GSSAPI" mechs then f else g) x)
        as [a2 [e|blobs]] eqn:Hg
  end.
  { intros [= <- <-]. by exists a2, (inl e). }
  intros H. exists a2, (inr blobs). split; [done|]. revert H.
  unfold bind at 1. unfold call.
  destruct (create_file X _ _ (ext a2)) as [w [e|path]] eqn:Hf.
  { intros [= <- <-]. by exists w, (inl e). }
  unfold bind, conf_store, conf_item, env_add, emit, ret. cbn [conf set_conf set_world].
  rewrite lookup_insert_eq. cbn. intros [= <- <-].
  exists w, (inr path). split; [done|]. cbn. split_and!; try done.
  unfold jaas_events. by rewrite <- !app_assoc.
Qed.

Lemma configure_properties_ok blob kp a h :
  cooperative X → zk a = Some h → (∀ n, kp = VInt n → n = 0%Z) →
  ∃ a', configure_properties X blob kp a = (a', inr tt).
Proof.
  intros HX Hzk Hkp.
  cut (∃ a' x, configure_properties X blob kp a = (a', inr x)).
  { intros (a' & [] & H). eauto. }
  apply wp_total. unfold configure_properties, conf_setdefault, env_add.
  wp_prim. apply wp_call_total; [apply HX|]. intros w d.
  do 5 wp_prim. destruct (bool_decide _); repeat wp_prim;
    cbn [zk set_conf set_world]; rewrite Hzk; cbn [handle_conf]; repeat wp_prim.
  all: destruct (bool_decide _); repeat wp_prim.
  all: apply wp_call_total; [apply HX|]; intros w1 f1; repeat wp_prim.
  all: apply wp_call_total; [apply HX|]; intros w2 f2; repeat wp_prim.
  all: apply wp_conf_item; cbn [conf set_conf set_world]; rewrite lookup_insert_eq;
    repeat wp_prim.
  all: unfold start_script; destruct kp as [s|n|]; cbn [truthy path_arg].
  all: try (destruct (negb _) eqn:Hneg; repeat wp_prim).
  all: try (exfalso; rewrite (Hkp n eq_refl) in Hneg; done).
  all: repeat wp_prim.
  all: apply wp_conf_item; cbn [conf set_conf set_world];
    rewrite lookup_insert_ne, lookup_insert_eq by done; repeat wp_prim; done.
Qed.

End Sasl.

(** ** Strings, fields and sorted sets *)

Section Strings.

Lemma strict_le_forall (x : string) l :
  Forall (String.le x) l → x ∉ l → Forall (str_lt x) l.
Proof.
  induction 1 as [|y l Hxy _ IH]; [constructor|].
  intros Hnin. apply not_elem_of_cons in Hnin as [Hne Hnin].
  constructor; [|by apply IH]. split; [done|].
  intros Hyx. apply Hne. by apply (anti_symm String.le).
Qed.

Lemma sorted_set_sorted l : StronglySorted str_lt (Py.sorted_set l).
Proof.
  unfold Py.sorted_set.
  assert (NoDup (merge_sort String.le (elements (list_to_set l : gset string)))) as Hnd.
  { rewrite merge_sort_Permutation. apply NoDup_elements. }
  pose proof (StronglySorted_merge_sort String.le
    (elements (list_to_set l : gset string))) as Hs.
  induction Hs as [|x l' Hs IH Hall]; [constructor|].
  apply NoDup_cons in Hnd as [Hx Hnd].
  constructor; [by apply IH|]. by apply strict_le_forall.
Qed.

Lemma chars_remove_char c d s :
  c ∈ chars (Py.remove_char d s) ↔ c ∈ chars s ∧ c ≠ d.
Proof.
  induction s as [|e s IH]; cbn.
  - rewrite elem_of_nil. tauto.
  - destruct (decide (e = d)) as [->|Hne]; cbn; rewrite ?elem_of_cons, IH.
    + split; [tauto|]. intros [[->|?] ?]; tauto.
    + split; [intros [->|[? ?]]; tauto|tauto].
Qed.

Lemma split_field_nonempty sep s :
  (∃ w, w ∈ Py.split sep s ∧ w ≠ EmptyString) ↔ ∃ c, c ∈ chars s ∧ c ≠ sep.
Proof.
  induction s as [|e s IH]; cbn.
  - split; [intros (w & ->%list_elem_of_singleton & ?); done|].
    intros (c & []%elem_of_nil & _).
  - destruct (decide (e = sep)) as [->|Hne].
    + split.
      * intros (w & [->|Hw]%elem_of_cons & Hne); [done|].
        destruct IH as [IH _]. destruct IH as (c & ? & ?); [by exists w|].
        exists c. split; [by right|done].
      * intros (c & [->|Hc]%elem_of_cons & Hne); [done|].
        destruct IH as [_ IH]. destruct IH as (w & ? & ?); [by exists c|].
        exists w. split; [by right|done].
    + split; [intros _; exists e; split; [left|done]|]. intros _.
      destruct (Py.split sep s) as [|w ws]; eexists; (split; [left|done]).
Qed.

Lemma parse_sasl_mechs_nonempty csv :
  parse_sasl_mechs csv ≠ [] ↔ ∃ c, c ∈ chars csv ∧ c ≠ " "%char ∧ c ≠ ","%char.
Proof.
  unfold parse_sasl_mechs.
  transitivity (∃ w, w ∈ Py.split "," (Py.remove_char " " csv) ∧ w ≠ EmptyString).
  - split.
    + intros Hne. destruct (filter _ _) as [|w ws] eqn:Hf; [done|].
      assert (w ∈ filter (λ x : string, 0 < Py.len x) (Py.split "," (Py.remove_char " " csv))) as Hw
        by (rewrite Hf; left).
      apply list_elem_of_filter in Hw as [Hlen Hw]. exists w. split; [done|].
      intros ->. cbn in Hlen. lia.
    + intros (w & Hw & Hne) Hnil.
      assert (w ∈ filter (λ x : string, 0 < Py.len x) (Py.split "," (Py.remove_char " " csv))) as Hin.
      { apply list_elem_of_filter. split; [|done]. destruct w; [done|cbn; lia]. }
      rewrite Hnil in Hin. by apply elem_of_nil in Hin.
  - rewrite split_field_nonempty. split.
    + intros (c & [Hc Hsp]%chars_remove_char & Hcomma). by exists c.
    + intros (c & Hc & Hsp & Hcomma). exists c. split; [|done].
      by apply chars_remove_char.
Qed.

Lemma split_length sep s :
  length (Py.split sep s) = S (length (filter (λ c, c = sep) (chars s))).
Proof.
  induction s as [|e s IH]; [done|]. cbn [Py.split chars].
  rewrite filter_cons. destruct (decide (e = sep)); cbn [length]; [by rewrite IH|].
  rewrite <- IH. by destruct (Py.split sep s).
Qed.

Lemma parse_users_none entries :
  (∃ up, up ∈ entries ∧ length (Py.split "=" up) ≠ 2) → parse_users entries = None.
Proof.
  induction entries as [|e l IH]; intros (up & Hin & Hlen).
  - by apply elem_of_nil in Hin.
  - cbn. apply elem_of_cons in Hin as [->|Hin].
    + destruct (Py.split "=" e) as [|u [|p [|? ?]]]; done.
    + rewrite IH by eauto. by destruct (Py.split "=" e) as [|u [|p [|? ?]]].
Qed.

End Strings.

(** ** The last block of the constructor *)

Lemma wp_start_script {E} kp (Q : string → App E → Prop) (R : exn → App E → Prop) b :
  Q (start_sh kp) b → (∀ e, R e b) → wp (start_script kp) Q R b.
Proof.
  intros HQ HR. unfold start_script, start_sh in *. destruct kp as [s|n|]; cbn [truthy path_arg].
  - destruct (bool_decide (s = EmptyString)); cbn [negb]; repeat wp_prim; done.
  - destruct (negb _); repeat wp_prim; done.
  - repeat wp_prim. done.
Qed.

Lemma configure_properties_run {E} (X : Collaborators E) blob kp (a a' : App E) :
  configure_properties X blob kp a = (a', inr tt) →
  ∃ h d f l,
    zk a = Some h
    ∧ conf a' =
        <["stop_cmd" := VNone]>
          (<["start_cmd" := VStr (start_sh kp +:+ " " +:+ f)]>
             (<["log4j_file" := VStr l]>
                (<["conf_file" := VStr f]>
                   (with_properties d (default VNone (app_conf h !! "address")) (conf a)))))
    ∧ trace a' = trace a ++
        properties_events
          (with_properties d (default VNone (app_conf h !! "address")) (conf a)) blob f l.
Proof.
  intros H.
  apply (wp_elim _ (λ _ a', ∃ h d f l,
    zk a = Some h
    ∧ conf a' =
        <["stop_cmd" := VNone]>
          (<["start_cmd" := VStr (start_sh kp +:+ " " +:+ f)]>
             (<["log4j_file" := VStr l]>
                (<["conf_file" := VStr f]>
                   (with_properties d (default VNone (app_conf h !! "address")) (conf a)))))
    ∧ trace a' = trace a ++
        properties_events
          (with_properties d (default VNone (app_conf h !! "address")) (conf a)) blob f l)
    (λ _ _, True)) in H; [done|]. clear H.
  unfold configure_properties, env_add. wp_prim.
  apply wp_call. intros w [e|d] _; [done|]. do 2 wp_prim.
  assert (∀ k v (Q : unit → App E → Prop) R (b : App E),
    Q tt (set_conf (setdefault k v) b) → wp (conf_setdefault k v) Q R b) as Hsd.
  { intros k v Q R b HQ. unfold conf_setdefault. do 2 wp_prim.
    unfold set_conf, setdefault in HQ. revert HQ.
    destruct (bool_decide _); intros HQ; wp_prim; [by destruct b|exact HQ]. }
  wp_prim. apply Hsd. repeat wp_prim. cbn [zk set_conf set_world].
  destruct (zk a) as [h|]; cbn [handle_conf]; wp_prim; [|done].
  repeat wp_prim. apply Hsd. repeat wp_prim.
  apply wp_call. intros w1 [e1|f] _; [done|]. repeat wp_prim.
  apply wp_call. intros w2 [e2|l] _; [done|]. repeat wp_prim.
  apply wp_conf_item. cbn [conf set_conf set_world]. rewrite lookup_insert_eq.
  repeat wp_prim.
  apply wp_start_script; [|done]. wp_prim. apply wp_conf_item. cbn [conf set_conf set_world].
  rewrite lookup_insert_ne, lookup_insert_eq by done. repeat wp_prim.
  exists h, d, f, l. split; [done|]. cbn [conf set_conf set_world trace str].
  split; [done|]. unfold properties_events. by rewrite <- !app_assoc.
Qed.

(** ** What the collaborators answered *)

Section Calls.
Context {E : Type} (X : Collaborators E).
Implicit Types a : App E.

Lemma allocate_ports_answers l a a' ports :
  allocate_ports X l a = (a', inr ports) →
  next_ports X (length ports) (ext a) = Some (ports.*2, ext a').
Proof.
  unfold allocate_ports. generalize (Py.sorted_set l). clear l.
  intros l. revert a a' ports. induction l as [|x l IH]; intros a a' ports; cbn [mapM].
  - by intros [= <- <-].
  - unfold bind at 1. unfold bind at 1. unfold call.
    destruct (TcpPortAllocator_next X (ext a)) as [w [e|p]] eqn:Hp; [done|].
    cbn. unfold bind at 1.
    destruct (mapM _ l _) as [a2 [e|ps]] eqn:Hl; intros [= <- <-].
    apply IH in Hl. cbn in Hl. cbn. by rewrite Hp, Hl.
Qed.

Lemma resolve_zookeeper_ext a a' r : resolve_zookeeper X a = (a', r) → ext a' = ext a.
Proof.
  unfold resolve_zookeeper, bind, attr, zk_store.
  destruct (find_app X _ _); by intros [= <- _].
Qed.

Lemma normalise_version_ext a a' r : @normalise_version E a = (a', r) → ext a' = ext a.
Proof.
  unfold normalise_version, bind, conf_item.
  destruct (conf a !! "version"); [|by intros [= <- _]].
  destruct (decide _); by intros [= <- _].
Qed.

Lemma requested_listeners_ext a a' r : @requested_listeners E a = (a', r) → ext a' = ext a.
Proof.
  intros H.
  apply (wp_elim _ (λ _ a', ext a' = ext a) (λ _ a', ext a' = ext a)) in H;
    [by destruct r|].
  unfold requested_listeners. repeat wp_prim.
  destruct (default _ _); cbn [str_method]; wp_prim; [|done..].
  repeat wp_prim.
  destruct (default _ _); cbn [str_method]; wp_prim; [|done..].
  repeat wp_prim. done.
Qed.

Lemma publish_listeners_ext ports a a' r :
  publish_listeners ports a = (a', r) → ext a' = ext a.
Proof.
  intros H.
  apply (wp_elim _ (λ _ a', ext a' = ext a) (λ _ a', ext a' = ext a)) in H;
    [by destruct r|].
  unfold publish_listeners, dbg. wp_prim.
  destruct ports as [|x rest]; wp_prim; [done|].
  repeat wp_prim. apply wp_conf_item. destruct (_ !! "nodename"); [|done].
  repeat wp_prim. apply wp_conf_item. destruct (_ !! "port") as [p|]; [|done].
  repeat wp_prim. destruct p; cbn [fmt_d]; wp_prim; try done.
  repeat wp_prim. apply wp_conf_item. destruct (_ !! "listeners"); [|done].
  repeat wp_prim. apply wp_conf_item. destruct (_ !! "listeners"); [|done].
  repeat wp_prim. done.
Qed.

(** The ports of the listeners are the answers of the allocator, asked
    once per listener from the external state the constructor started in. *)
Lemma listeners_phase_answers a a1 mechs ports :
  listeners_phase X a = (a1, inr (mechs, ports)) →
  next_ports X (length ports) (ext a) = Some (ports.*2, ext a1).
Proof.
  unfold listeners_phase. unfold bind at 1.
  destruct (resolve_zookeeper X a) as [b1 [e|[]]] eqn:H1; [done|].
  apply resolve_zookeeper_ext in H1. unfold bind at 1.
  destruct (normalise_version b1) as [b2 [e|[]]] eqn:H2; [done|].
  apply normalise_version_ext in H2. unfold bind at 1.
  destruct (requested_listeners b2) as [b3 [e|ls]] eqn:H3; [done|].
  apply requested_listeners_ext in H3. unfold bind at 1.
  destruct (allocate_ports X ls.1 b3) as [b4 [e|ps]] eqn:H4; [done|].
  apply allocate_ports_answers in H4. unfold bind at 1.
  destruct (publish_listeners ps b4) as [b5 [e|[]]] eqn:H5; [done|].
  apply publish_listeners_ext in H5. intros [= <- _ <-].
  rewrite H5. rewrite <- H1, <- H2, <- H3. exact H4.
Qed.

(** The GSSAPI step keeps what the KDC answered. *)
Lemma sasl_gssapi_principal cb jb a a' x :
  sasl_gssapi X cb jb a = (a', inr x) →
  ∃ h krb5 k,
    find_app X (ByClass "KerberosKdcApp") (ext a) = Some h
    ∧ app_conf h !! "krb5_conf" = Some krb5
    ∧ add_principal X h "kafka" (node_name a) (ext a) = (ext a', inr k)
    ∧ kerberos a' = Some k
    ∧ x = (cb ++ ["sasl.kerberos.service.name=kafka"], jb ++ krb5_stanza k.1 k.2)
    ∧ trace a' = trace a ++ gssapi_events krb5 (node_name a).
Proof.
  unfold sasl_gssapi, bind, attr, env_add, emit, kerberos_store, call.
  destruct (find_app X (ByClass "KerberosKdcApp") (ext a)) as [h|] eqn:Hk;
    cbn [handle_conf ret raise]; [|done].
  unfold item. destruct (app_conf h !! "krb5_conf") as [krb5|] eqn:Hc;
    cbn [ret raise set_world set_conf ext trace node_name]; [|done].
  destruct (add_principal X h "kafka" (node_name a) (ext a)) as [w [e|k]] eqn:Hp;
    intros [= <- <-]; cbn.
  exists h, krb5, k. split_and!; try done. unfold gssapi_events.
  by rewrite <- !app_assoc.
Qed.

(** The last block: what was created, and where the paths stored come
    from. *)
Lemma configure_properties_calls blob kp a a' :
  configure_properties X blob kp a = (a', inr tt) →
  ∃ h d f l w1 w2,
    zk a = Some h
    ∧ create_dir X "logs" (ext a) = (w1, inr d)
    ∧ create_file_from_template X "server.properties"
        (with_properties d (default VNone (app_conf h !! "address")) (conf a))
        (Some (Py.join Py.LF blob)) None w1 = (w2, inr f)
    ∧ create_file_from_template X "log4j.properties"
        (<["conf_file" := VStr f]>
           (with_properties d (default VNone (app_conf h !! "address")) (conf a)))
        None (Some false) w2 = (ext a', inr l)
    ∧ conf a' !! "conf_file" = Some (VStr f)
    ∧ conf a' !! "log4j_file" = Some (VStr l)
    ∧ conf a' !! "start_cmd" = Some (VStr (start_sh kp +:+ " " +:+ f)).
Proof.
  intros H.
  apply (wp_elim _ (λ _ a', ∃ h d f l w1 w2,
    zk a = Some h
    ∧ create_dir X "logs" (ext a) = (w1, inr d)
    ∧ create_file_from_template X "server.properties"
        (with_properties d (default VNone (app_conf h !! "address")) (conf a))
        (Some (Py.join Py.LF blob)) None w1 = (w2, inr f)
    ∧ create_file_from_template X "log4j.properties"
        (<["conf_file" := VStr f]>
           (with_properties d (default VNone (app_conf h !! "address")) (conf a)))
        None (Some false) w2 = (ext a', inr l)
    ∧ conf a' !! "conf_file" = Some (VStr f)
    ∧ conf a' !! "log4j_file" = Some (VStr l)
    ∧ conf a' !! "start_cmd" = Some (VStr (start_sh kp +:+ " " +:+ f)))
    (λ _ _, True)) in H; [done|]. clear H.
  unfold configure_properties, env_add. wp_prim.
  apply wp_call. intros w [e|d] Hd; [done|]. do 2 wp_prim.
  assert (∀ k v (Q : unit → App E → Prop) R (b : App E),
    Q tt (set_conf (setdefault k v) b) → wp (conf_setdefault k v) Q R b) as Hsd.
  { intros k v Q R b HQ. unfold conf_setdefault. do 2 wp_prim.
    unfold set_conf, setdefault in HQ. revert HQ.
    destruct (bool_decide _); intros HQ; wp_prim; [by destruct b|exact HQ]. }
  wp_prim. apply Hsd. repeat wp_prim. cbn [zk set_conf set_world].
  destruct (zk a) as [h|]; cbn [handle_conf]; wp_prim; [|done].
  repeat wp_prim. apply Hsd. repeat wp_prim.
  apply wp_call. intros w1 [e1|f] Hf; [done|]. repeat wp_prim.
  apply wp_call. intros w2 [e2|l] Hl; [done|]. repeat wp_prim.
  apply wp_conf_item. cbn [conf set_conf set_world]. rewrite lookup_insert_eq.
  repeat wp_prim.
  apply wp_start_script; [|done]. wp_prim. apply wp_conf_item. cbn [conf set_conf set_world].
  rewrite lookup_insert_ne, lookup_insert_eq by done. repeat wp_prim.
  cbn [conf set_conf set_world trace str ext] in *.
  exists h, d, f, l, w, w1. split_and!; try done.
  - by rewrite !lookup_insert_ne, lookup_insert_eq by done.
  - by rewrite !lookup_insert_ne, lookup_insert_eq by done.
  - by rewrite lookup_insert_ne, lookup_insert_eq by done.
Qed.

End Calls.

(** ** The claims *)

Lemma init_ok_inv {E} (X : Collaborators E) kp (a a' : App E) :
  __init__ X kp a = (a', inr tt) →
  ∃ a1 mechs ports,
    listeners_phase X a = (a1, inr (mechs, ports)) ∧
    published X a a1 mechs ports ∧
    sasl_phase X kp mechs a1 = (a', inr tt).
Proof.
  rewrite init_phases. unfold bind at 1.
  destruct (listeners_phase X a) as [a1 [e|[mechs ports]]] eqn:Hl; [done|].
  intros Hs. exists a1, mechs, ports. split_and!; [done| |done].
  by apply (listeners_phase_run X a a1 (inr (mechs, ports))).
Qed.

Lemma modifies_sasl_phase {E} (X : Collaborators E) kp mechs :
  modifies late_keys (sasl_phase X kp mechs).
Proof.
  unfold sasl_phase. apply modifies_bind; [apply modifies_conf_store; in_keys|].
  intros _. apply modifies_bind; [apply modifies_configure_sasl|].
  intros blob. apply modifies_configure_properties.
Qed.

(** C9. When the cluster has no Zookeeper application, the constructor
    raises [Exception('ZookeeperApp required')]: no application is
    produced, and neither the configuration nor the trace has changed. *)
Theorem zookeeper_required {E} (X : Collaborators E) kp (a : App E) :
  find_app X (ByName "ZookeeperApp") (ext a) = None →
  ∃ a', __init__ X kp a = (a', inl (Exception "ZookeeperApp required"))
        ∧ conf a' = conf a ∧ trace a' = trace a.
Proof.
  intros H. unfold __init__, resolve_zookeeper, bind, attr, zk_store.
  rewrite H. cbn. eauto.
Qed.

Lemma zookeeper_required_witness :
  ∃ a', __init__ (Demo.cluster false true 0) VNone
          (Demo.app {[ "version" := VStr "0.9.0.1" ]})
        = (a', inl (Exception "ZookeeperApp required"))
        ∧ conf a' = conf (Demo.app {[ "version" := VStr "0.9.0.1" ]})
        ∧ trace a' = trace (Demo.app {[ "version" := VStr "0.9.0.1" ]}).
Proof.
  apply (zookeeper_required (Demo.cluster false true 0) VNone
           (Demo.app {[ "version" := VStr "0.9.0.1" ]})).
  reflexivity.
Defined.

(** C6. After every construction that returns, the configuration value
    [advertised.listeners] is the very string stored under [listeners]. *)
Theorem advertised_listeners_identical {E} (X : Collaborators E) kp (a a' : App E) :
  __init__ X kp a = (a', inr tt) →
  ∃ s, conf a' !! "listeners" = Some (VStr s)
       ∧ conf a' !! "advertised.listeners" = Some (VStr s).
Proof.
  intros (a1 & mechs & ports & _ & Hpub & Hs)%init_ok_inv.
  apply modifies_sasl_phase in Hs as (Hconf & _).
  destruct (pub_urls _ _ _ _ _ Hpub) as (s & _ & Hl & Hadv).
  exists s. rewrite !Hconf by (unfold late_keys; by apply (bool_decide_unpack _)).
  done.
Qed.

Lemma advertised_listeners_identical_witness :
  ∃ s, conf (__init__ (Demo.cluster true true 0) VNone
               (Demo.app {[ "version" := VStr "0.9.0.1" ]})).1 !! "listeners"
       = Some (VStr s)
       ∧ conf (__init__ (Demo.cluster true true 0) VNone
                 (Demo.app {[ "version" := VStr "0.9.0.1" ]})).1 !! "advertised.listeners"
         = Some (VStr s).
Proof.
  apply (advertised_listeners_identical (Demo.cluster true true 0) VNone
           (Demo.app {[ "version" := VStr "0.9.0.1" ]})).
  vm_compute. reflexivity.
Defined.


(** C1, as the specification words it, fails: a mechanism CSV that holds
    a tab only is not empty for the code, which removes spaces and nothing
    else, so [SASL_PLAINTEXT] is added although stripping white space
    leaves no mechanism. *)
Lemma listener_set_tab_counterexample :
  ¬ listener_set_as_specified (Demo.cluster true true 0)
      (Demo.app {[ "version" := VStr "0.9.0.1"; "sasl_mechanisms" := VStr TAB ]}).
Proof.
  intros H.
  specialize (H
    (listeners_phase (Demo.cluster true true 0)
       (Demo.app {[ "version" := VStr "0.9.0.1"; "sasl_mechanisms" := VStr TAB ]})).1
    [TAB] [("PLAINTEXT", 9092%Z); ("SASL_PLAINTEXT", 9093%Z)] "PLAINTEXT" TAB).
  assert (["PLAINTEXT"; "SASL_PLAINTEXT"] = spec_listener_set "PLAINTEXT" TAB) as Hset.
  { apply H; vm_compute; reflexivity. }
  vm_compute in Hset. discriminate Hset.
Qed.

(** C1, amended. The listeners that ports are allocated to are the sorted
    union, without duplicates, of the fields of the listener CSV
    ([PLAINTEXT] when there is none) and of [SASL_PLAINTEXT], which is
    there if and only if a SASL mechanism was requested; the mechanisms are
    the fields of the mechanism CSV after every space character, and no
    other white space, is removed and the empty fields are dropped, so
    there is one as soon as the CSV has a character that is neither a
    space nor a comma. *)
Theorem listener_set_sorted_union {E} (X : Collaborators E) (a a1 : App E) mechs ports :
  listeners_phase X a = (a1, inr (mechs, ports)) →
  ∃ lcsv mcsv,
    default (VStr "PLAINTEXT") (conf a !! "listeners") = VStr lcsv
    ∧ default (VStr EmptyString) (conf a !! "sasl_mechanisms") = VStr mcsv
    ∧ mechs = filter (λ x, 0 < Py.len x) (Py.split "," (Py.remove_char " " mcsv))
    ∧ (mechs ≠ [] ↔ ∃ c, c ∈ chars mcsv ∧ c ≠ " "%char ∧ c ≠ ","%char)
    ∧ StronglySorted str_lt ports.*1
    ∧ ∀ x, x ∈ ports.*1 ↔
           x ∈ Py.split "," lcsv ∨ (x = "SASL_PLAINTEXT" ∧ mechs ≠ []).
Proof.
  intros Hrun. apply (listeners_phase_run X a a1 (inr (mechs, ports))) in Hrun.
  destruct (pub_listeners _ _ _ _ _ Hrun) as (lcsv & mcsv & Hl & Hm & Hmechs & Hnames).
  cbn [fst snd] in *. exists lcsv, mcsv. split_and!; try done.
  - rewrite Hmechs. apply parse_sasl_mechs_nonempty.
  - rewrite Hnames. apply sorted_set_sorted.
  - intros x. rewrite Hnames, sorted_set_elem. unfold wanted_listeners.
    rewrite elem_of_app, Hmechs. destruct (parse_sasl_mechs mcsv) as [|m ms] eqn:Hp.
    + cbn. rewrite elem_of_nil.
      split; [intros [?|[]]; by left|intros [?|[_ ?]]; [by left|done]].
    + rewrite bool_decide_eq_true_2 by (cbn; lia).
      rewrite list_elem_of_singleton.
      split; [intros [?|?]; [by left|by right]|intros [?|[? _]]; [by left|by right]].
Qed.

Lemma listener_set_sorted_union_witness :
  ∃ lcsv mcsv,
    default (VStr "PLAINTEXT")
      (conf (Demo.app {[ "version" := VStr "0.9.0.1"; "listeners" := VStr "SSL,PLAINTEXT";
                         "sasl_mechanisms" := VStr "GSSAPI, PLAIN" ]}) !! "listeners")
      = VStr lcsv
    ∧ default (VStr EmptyString)
        (conf (Demo.app {[ "version" := VStr "0.9.0.1"; "listeners" := VStr "SSL,PLAINTEXT";
                           "sasl_mechanisms" := VStr "GSSAPI, PLAIN" ]}) !! "sasl_mechanisms")
      = VStr mcsv
    ∧ ["GSSAPI"; "PLAIN"]
      = filter (λ x, 0 < Py.len x) (Py.split "," (Py.remove_char " " mcsv))
    ∧ (["GSSAPI"; "PLAIN"] ≠ [] ↔ ∃ c, c ∈ chars mcsv ∧ c ≠ " "%char ∧ c ≠ ","%char)
    ∧ StronglySorted str_lt
        [("PLAINTEXT", 9092%Z); ("SASL_PLAINTEXT", 9093%Z); ("SSL", 9094%Z)].*1
    ∧ ∀ x, x ∈ [("PLAINTEXT", 9092%Z); ("SASL_PLAINTEXT", 9093%Z); ("SSL", 9094%Z)].*1 ↔
           x ∈ Py.split "," lcsv ∨ (x = "SASL_PLAINTEXT" ∧ ["GSSAPI"; "PLAIN"] ≠ []).
Proof.
  apply (listener_set_sorted_union (Demo.cluster true true 0)
           (Demo.app {[ "version" := VStr "0.9.0.1"; "listeners" := VStr "SSL,PLAINTEXT";
                        "sasl_mechanisms" := VStr "GSSAPI, PLAIN" ]})
           (listeners_phase (Demo.cluster true true 0)
              (Demo.app {[ "version" := VStr "0.9.0.1"; "listeners" := VStr "SSL,PLAINTEXT";
                           "sasl_mechanisms" := VStr "GSSAPI, PLAIN" ]})).1).
  vm_compute. reflexivity.
Defined.

Lemma listeners_phase_ok {E} (X : Collaborators E) (a : App E) h v nodename lcsv mcsv :
  never_raises (TcpPortAllocator_next X) →
  find_app X (ByName "ZookeeperApp") (ext a) = Some h →
  conf a !! "version" = Some v →
  conf a !! "nodename" = Some nodename →
  default (VStr "PLAINTEXT") (conf a !! "listeners") = VStr lcsv →
  default (VStr EmptyString) (conf a !! "sasl_mechanisms") = VStr mcsv →
  ∃ a1 ports,
    listeners_phase X a = (a1, inr (parse_sasl_mechs mcsv, ports))
    ∧ published X a a1 (parse_sasl_mechs mcsv) ports
    ∧ zk a1 = Some h.
Proof.
  intros Hports Hzk Hv Hn Hl Hm.
  destruct (listeners_phase X a) as [a1 [e|[mechs ports]]] eqn:Hrun;
    apply listeners_phase_run in Hrun.
  - exfalso. destruct Hrun as [H|[H|[H|[H|[H|H]]]]];
      first [congruence | by apply (H lcsv) | by apply (H mcsv) | by apply H].
  - cbn [fst snd] in Hrun.
    destruct (pub_listeners _ _ _ _ _ Hrun) as (lcsv' & mcsv' & _ & Hm' & Hmechs & _).
    destruct (pub_zk _ _ _ _ _ Hrun) as (h' & Hh & Hzk1).
    rewrite Hm in Hm'. injection Hm' as <-. subst mechs.
    exists a1, ports. split_and!; [done|done|congruence].
Qed.

(** C3, as the specification words it, fails: with PLAIN and no users the
    login file is created all the same. *)
Lemma plain_without_users_counterexample :
  ¬ plain_without_users_as_specified (Demo.cluster true true 0) VNone
      (Demo.app {[ "version" := VStr "0.9.0.1"; "sasl_mechanisms" := VStr "PLAIN";
                   "sasl_users" := VStr EmptyString ]}).
Proof.
  intros H. destruct H as (a' & Hrun & _ & Hfiles); [vm_compute; reflexivity..|].
  assert (a' = (__init__ (Demo.cluster true true 0) VNone
      (Demo.app {[ "version" := VStr "0.9.0.1"; "sasl_mechanisms" := VStr "PLAIN";
                   "sasl_users" := VStr EmptyString ]})).1) as -> by (by rewrite Hrun).
  vm_compute in Hfiles. discriminate Hfiles.
Qed.

Lemma sasl_phase_run {E} (X : Collaborators E) kp mechs (a1 a' : App E) r :
  sasl_phase X kp mechs a1 = (a', r) →
  ∃ a2 r2,
    configure_sasl X mechs (set_conf (insert "kafka_path" kp) a1) = (a2, r2)
    ∧ match r2 with
      | inl e => r = inl e ∧ a' = a2
      | inr blob => configure_properties X blob kp a2 = (a', r)
      end.
Proof.
  unfold sasl_phase, bind, conf_store.
  destruct (configure_sasl X mechs _) as [a2 [e|blob]] eqn:Hc.
  - intros [= <- <-]. by exists a2, (inl e).
  - intros H. by exists a2, (inr blob).
Qed.

Lemma late_lookup {E} (a a1 : App E) kp k :
  (∀ k, k ∉ early_keys → conf a1 !! k = conf a !! k) →
  k ∉ early_keys → k ≠ "kafka_path" →
  conf (set_conf (insert "kafka_path" kp) a1) !! k = conf a !! k.
Proof. intros H Hk Hne. cbn. rewrite lookup_insert_ne by done. by apply H. Qed.

(** C3, amended. With the mechanism PLAIN and an empty [sasl_users], a
    construction whose other inputs are in order (a Zookeeper application,
    a version, a node name, a string of listeners, collaborators that do
    not fail) returns, the warning is logged and not raised, and the login
    file is created all the same: it holds the outer block alone, with no
    PLAIN stanza and no user line. *)
Theorem plain_without_users {E} (X : Collaborators E) kp (a : App E) h v nodename lcsv :
  cooperative X →
  find_app X (ByName "ZookeeperApp") (ext a) = Some h →
  conf a !! "version" = Some v →
  conf a !! "nodename" = Some nodename →
  default (VStr "PLAINTEXT") (conf a !! "listeners") = VStr lcsv →
  (∀ n, kp = VInt n → n = 0%Z) →
  conf a !! "sasl_mechanisms" = Some (VStr "PLAIN") →
  conf a !! "sasl_users" = Some (VStr EmptyString) →
  ∃ a', __init__ X kp a = (a', inr tt)
        ∧ Log warning ∈ trace a'
        ∧ CreateFile "jaas_broker.conf" ("KafkaServer {" +:+ Py.LF +:+ "};" +:+ Py.LF)
            ∈ trace a'.
Proof.
  intros HX Hzk Hv Hn Hl Hkp Hm Hu.
  destruct (listeners_phase_ok X a h v nodename lcsv "PLAIN") as (a1 & ports & Hrun & Hpub & Hzk1);
    [apply HX|done..|by rewrite Hm|].
  change (parse_sasl_mechs "PLAIN") with ["PLAIN"] in *.
  rewrite init_phases. unfold bind at 1. rewrite Hrun. cbn [fst].
  destruct (sasl_phase X kp ["PLAIN"] a1) as [a' r] eqn:Hs.
  pose proof Hs as (a2 & r2 & Hc & Hp)%sasl_phase_run.
  apply configure_sasl_run in Hc; [|done].
  rewrite (late_lookup a a1) in Hc; [|apply Hpub|by apply (bool_decide_unpack _)..].
  rewrite Hu in Hc. cbn [default] in Hc.
  change (plain_result ["PLAIN"] (VStr EmptyString)) with
    (inr (A:=exn) (([] : list string), [Log warning])) in Hc.
  destruct Hc as (a3 & r3 & Hg & Hc). cbn in Hg. injection Hg as <- <-.
  destruct Hc as (w & rr & Hf & Hc).
  cbn [fst snd] in Hf, Hc.
  match type of Hf with
  | create_file X ?n ?d ?w0 = _ => destruct (files_ok X HX n d w0) as (w' & path & Hf')
  end.
  rewrite Hf' in Hf. injection Hf as <- <-.
  destruct Hc as (-> & Hconf & Htr & _ & Hz & _).
  destruct (configure_properties_ok X [mechanisms_line ["PLAIN"]] kp a2 h HX) as (a'' & Hok);
    [by rewrite Hz|done|].
  rewrite Hok in Hp. injection Hp as <- <-.
  exists a''. split; [done|].
  apply modifies_configure_properties in Hok as (_ & Hpre & _).
  split; (eapply elem_of_prefix; [|exact Hpre]); rewrite Htr; cbn.
  - apply elem_of_app; left. apply elem_of_app; right. left.
  - apply elem_of_app; right. left.
Qed.

Lemma demo_cooperative zk kdc code : cooperative (Demo.cluster zk kdc code).
Proof. split; intros; intros w; eexists _, _; reflexivity. Qed.

Lemma plain_without_users_witness :
  ∃ a', __init__ (Demo.cluster true true 0) VNone
          (Demo.app {[ "version" := VStr "0.9.0.1"; "sasl_mechanisms" := VStr "PLAIN";
                       "sasl_users" := VStr EmptyString ]}) = (a', inr tt)
        ∧ Log warning ∈ trace a'
        ∧ CreateFile "jaas_broker.conf" ("KafkaServer {" +:+ Py.LF +:+ "};" +:+ Py.LF)
            ∈ trace a'.
Proof.
  apply (plain_without_users (Demo.cluster true true 0) VNone
           (Demo.app {[ "version" := VStr "0.9.0.1"; "sasl_mechanisms" := VStr "PLAIN";
                        "sasl_users" := VStr EmptyString ]})
           Demo.zookeeper (VStr "0.9.0.1") (VStr "localhost") "PLAINTEXT").
  - apply demo_cooperative.
  - reflexivity.
  - vm_compute. reflexivity.
  - vm_compute. reflexivity.
  - vm_compute. reflexivity.
  - intros n Hn. discriminate Hn.
  - vm_compute. reflexivity.
  - vm_compute. reflexivity.
Defined.

Lemma sasl_ok_inv {E} (X : Collaborators E) kp (a a' : App E) :
  __init__ X kp a = (a', inr tt) →
  ∃ a1 a2 mechs ports blob,
    listeners_phase X a = (a1, inr (mechs, ports))
    ∧ published X a a1 mechs ports
    ∧ configure_sasl X mechs (set_conf (insert "kafka_path" kp) a1) = (a2, inr blob)
    ∧ configure_properties X blob kp a2 = (a', inr tt).
Proof.
  intros (a1 & mechs & ports & Hrun & Hpub & Hs)%init_ok_inv.
  apply sasl_phase_run in Hs as (a2 & [e|blob] & Hc & Hp); [by destruct Hp|].
  by exists a1, a2, mechs, ports, blob.
Qed.

(** C2. After every construction that returns, the port stored under
    [port], and printed in [address] after the node name, is the port
    allocated to the first listener: the answer of the allocator to the
    first call, made in the external state the constructor started in, the
    later listeners getting the answers to the later calls in their order.
    The protocol name of the first listener is strictly below every other
    one in the order of [str]. With the listeners [SSL,PLAINTEXT] and no
    SASL mechanism, exactly two ports are allocated, to [PLAINTEXT] then
    to [SSL]: the trace holds two calls of the allocator and no other, and
    the default port is the one of [PLAINTEXT]. *)
Theorem default_port_first_listener {E} (X : Collaborators E) kp (a a' : App E) :
  __init__ X kp a = (a', inr tt) →
  ∃ a1 mechs x rest nodename,
    listeners_phase X a = (a1, inr (mechs, x :: rest))
    ∧ Forall (λ y, str_lt x.1 y.1) rest
    ∧ (∃ w, TcpPortAllocator_next X (ext a) = (w, inr x.2))
    ∧ next_ports X (S (length rest)) (ext a) = Some (x.2 :: rest.*2, ext a1)
    ∧ conf a !! "nodename" = Some nodename
    ∧ conf a' !! "port" = Some (VInt x.2)
    ∧ conf a' !! "address" = Some (VStr (str nodename +:+ ":" +:+ Py.fmt_d x.2))
    ∧ (conf a !! "listeners" = Some (VStr "SSL,PLAINTEXT") →
       conf a !! "sasl_mechanisms" = None →
       x.1 = "PLAINTEXT"
       ∧ ∃ p t, rest = [("SSL", p)]
                ∧ trace a' = trace a ++ [PortNext; PortNext] ++ t
                ∧ PortNext ∉ t).
Proof.
  intros Hinit.
  pose proof Hinit as (a1 & a2 & mechs & ports & blob & Hrun & Hpub & Hsasl & Hprop)%sasl_ok_inv.
  apply init_ok_inv in Hinit as (a1' & mechs' & ports' & Hrun' & _ & Hs).
  rewrite Hrun in Hrun'. injection Hrun' as <- <- <-.
  apply modifies_sasl_phase in Hs as (Hconf & _).
  destruct (pub_port _ _ _ _ _ Hpub) as (x & rest & nodename & -> & Hnode & Hport & Haddr).
  destruct (pub_listeners _ _ _ _ _ Hpub) as (lcsv & mcsv & Hl & Hm & Hmechs & Hnames).
  pose proof (listeners_phase_answers X _ _ _ _ Hrun) as Hans.
  exists a1, mechs, x, rest, nodename. split_and!; try done.
  - pose proof (sorted_set_sorted (wanted_listeners lcsv mcsv)) as Hsorted.
    rewrite <- Hnames in Hsorted. cbn in Hsorted.
    apply StronglySorted_inv in Hsorted as [_ Hall].
    rewrite Forall_fmap in Hall. exact Hall.
  - cbn [length next_ports] in Hans.
    destruct (TcpPortAllocator_next X (ext a)) as [w [e|p]]; [done|].
    destruct (next_ports X (length rest) w) as [[ps w']|]; [|done].
    injection Hans as -> _ _. by exists w.
  - rewrite Hconf by (unfold late_keys; by apply (bool_decide_unpack _)). done.
  - rewrite Hconf by (unfold late_keys; by apply (bool_decide_unpack _)). done.
  - intros Hl' Hm'. rewrite Hl' in Hl. rewrite Hm' in Hm. cbn in Hl, Hm.
    injection Hl as <-. injection Hm as <-.
    change (Py.sorted_set (wanted_listeners "SSL,PLAINTEXT" EmptyString))
      with (Py.sorted_set ["SSL"; "PLAINTEXT"]) in Hnames.
    replace (Py.sorted_set ["SSL"; "PLAINTEXT"]) with ["PLAINTEXT"; "SSL"] in Hnames
      by (vm_compute; reflexivity).
    destruct x as [n p], rest as [|[n2 p2] [|? ?]]; try done.
    cbn in Hnames. injection Hnames as -> ->. split; [done|].
    change (parse_sasl_mechs EmptyString) with (@nil string) in Hmechs. subst mechs.
    rewrite configure_sasl_none in Hsasl. injection Hsasl as <- <-.
    apply configure_properties_run in Hprop as (h & d & f & l & _ & _ & Htr).
    destruct (pub_trace _ _ _ _ _ Hpub) as (s & _ & Htr1).
    cbn [trace set_conf length replicate] in Htr, Htr1.
    eexists p2, _. split; [done|]. split.
    + rewrite Htr, Htr1. rewrite <- !app_assoc. reflexivity.
    + unfold properties_events. intros Hin.
      repeat (apply elem_of_cons in Hin as [Hin|Hin]; [discriminate Hin|]).
      by apply elem_of_nil in Hin.
Qed.

Lemma default_port_first_listener_witness :
  ∃ a1 mechs x rest nodename,
    listeners_phase (Demo.cluster true true 0)
      (Demo.app {[ "version" := VStr "0.9.0.1"; "listeners" := VStr "SSL,PLAINTEXT" ]})
    = (a1, inr (mechs, x :: rest))
    ∧ Forall (λ y, str_lt x.1 y.1) rest
    ∧ (∃ w, TcpPortAllocator_next (Demo.cluster true true 0)
              (ext (Demo.app {[ "version" := VStr "0.9.0.1";
                                "listeners" := VStr "SSL,PLAINTEXT" ]}))
            = (w, inr x.2))
    ∧ next_ports (Demo.cluster true true 0) (S (length rest))
        (ext (Demo.app {[ "version" := VStr "0.9.0.1"; "listeners" := VStr "SSL,PLAINTEXT" ]}))
      = Some (x.2 :: rest.*2, ext a1)
    ∧ conf (Demo.app {[ "version" := VStr "0.9.0.1"; "listeners" := VStr "SSL,PLAINTEXT" ]})
        !! "nodename" = Some nodename
    ∧ conf (__init__ (Demo.cluster true true 0) VNone
              (Demo.app {[ "version" := VStr "0.9.0.1";
                           "listeners" := VStr "SSL,PLAINTEXT" ]})).1 !! "port"
      = Some (VInt x.2)
    ∧ conf (__init__ (Demo.cluster true true 0) VNone
              (Demo.app {[ "version" := VStr "0.9.0.1";
                           "listeners" := VStr "SSL,PLAINTEXT" ]})).1 !! "address"
      = Some (VStr (str nodename +:+ ":" +:+ Py.fmt_d x.2))
    ∧ (conf (Demo.app {[ "version" := VStr "0.9.0.1"; "listeners" := VStr "SSL,PLAINTEXT" ]})
         !! "listeners" = Some (VStr "SSL,PLAINTEXT") →
       conf (Demo.app {[ "version" := VStr "0.9.0.1"; "listeners" := VStr "SSL,PLAINTEXT" ]})
         !! "sasl_mechanisms" = None →
       x.1 = "PLAINTEXT"
       ∧ ∃ p t, rest = [("SSL", p)]
                ∧ trace (__init__ (Demo.cluster true true 0) VNone
                           (Demo.app {[ "version" := VStr "0.9.0.1";
                                        "listeners" := VStr "SSL,PLAINTEXT" ]})).1
                  = trace (Demo.app {[ "version" := VStr "0.9.0.1";
                                       "listeners" := VStr "SSL,PLAINTEXT" ]})
                    ++ [PortNext; PortNext] ++ t
                ∧ PortNext ∉ t).
Proof.
  apply (default_port_first_listener (Demo.cluster true true 0) VNone
           (Demo.app {[ "version" := VStr "0.9.0.1"; "listeners" := VStr "SSL,PLAINTEXT" ]})).
  vm_compute. reflexivity.
Defined.

(** C7. With the mechanism PLAIN and the users [alice=secret,bob=pw], a
    construction that returns has created the login file with the PLAIN
    stanza: its [user_] lines are the line of alice and then the line of
    bob, two in all, and the last one ends with a semicolon. *)
Theorem plain_two_users {E} (X : Collaborators E) kp (a a' : App E) :
  conf a !! "sasl_mechanisms" = Some (VStr "PLAIN") →
  conf a !! "sasl_users" = Some (VStr "alice=secret,bob=pw") →
  __init__ X kp a = (a', inr tt) →
  ∃ data,
    CreateFile "jaas_broker.conf" data ∈ trace a'
    ∧ data = jaas_data (plain_stanza [("alice", "secret"); ("bob", "pw")])
    ∧ user_lines data =
        ["user_alice=" +:+ Py.DQ +:+ "secret" +:+ Py.DQ;
         "user_bob=" +:+ Py.DQ +:+ "pw" +:+ Py.DQ +:+ ";"].
Proof.
  intros Hm Hu (a1 & a2 & mechs & ports & blob & Hrun & Hpub & Hc & Hp)%sasl_ok_inv.
  destruct (pub_listeners _ _ _ _ _ Hpub) as (lcsv & mcsv & _ & Hm' & -> & _).
  rewrite Hm in Hm'. injection Hm' as <-.
  change (parse_sasl_mechs "PLAIN") with ["PLAIN"] in *.
  apply configure_sasl_run in Hc; [|done].
  rewrite (late_lookup a a1) in Hc; [|apply Hpub|by apply (bool_decide_unpack _)..].
  rewrite Hu in Hc. cbn [default] in Hc.
  replace (plain_result ["PLAIN"] (VStr "alice=secret,bob=pw")) with
    (inr (A:=exn) (plain_stanza [("alice", "secret"); ("bob", "pw")], ([] : list event)))
    in Hc by (vm_compute; reflexivity).
  destruct Hc as (a3 & r3 & Hg & Hc). cbn in Hg. injection Hg as <- <-.
  destruct Hc as (w & [e|path] & Hf & Hc); [done|].
  destruct Hc as (_ & _ & Htr & _).
  exists (jaas_data (plain_stanza [("alice", "secret"); ("bob", "pw")])).
  split_and!; [|done|vm_compute; reflexivity].
  apply modifies_configure_properties in Hp as (_ & Hpre & _).
  eapply elem_of_prefix; [|exact Hpre]. rewrite Htr.
  apply elem_of_app; right. left.
Qed.

Lemma plain_two_users_witness :
  ∃ data,
    CreateFile "jaas_broker.conf" data
      ∈ trace (__init__ (Demo.cluster true true 0) VNone
                 (Demo.app {[ "version" := VStr "0.9.0.1"; "sasl_mechanisms" := VStr "PLAIN";
                              "sasl_users" := VStr "alice=secret,bob=pw" ]})).1
    ∧ data = jaas_data (plain_stanza [("alice", "secret"); ("bob", "pw")])
    ∧ user_lines data =
        ["user_alice=" +:+ Py.DQ +:+ "secret" +:+ Py.DQ;
         "user_bob=" +:+ Py.DQ +:+ "pw" +:+ Py.DQ +:+ ";"].
Proof.
  apply (plain_two_users (Demo.cluster true true 0) VNone
           (Demo.app {[ "version" := VStr "0.9.0.1"; "sasl_mechanisms" := VStr "PLAIN";
                        "sasl_users" := VStr "alice=secret,bob=pw" ]})).
  - vm_compute. reflexivity.
  - vm_compute. reflexivity.
  - vm_compute. reflexivity.
Defined.

Lemma configure_properties_kerberos {E} (X : Collaborators E) blob kp (a a' : App E) r :
  configure_properties X blob kp a = (a', r) → kerberos a' = kerberos a.
Proof.
  intros H.
  apply (wp_elim _ (λ _ a', kerberos a' = kerberos a) (λ _ a', kerberos a' = kerberos a)) in H;
    [by destruct r|]. clear H.
  unfold configure_properties, conf_setdefault, env_add, start_script, handle_conf, path_arg.
  wp_prim. apply wp_call. intros w [e|d] _; [done|]. repeat wp_prim.
  destruct (bool_decide _); repeat wp_prim.
  all: cbn [zk set_conf set_world]; destruct (zk a); repeat wp_prim; try done.
  all: destruct (bool_decide _); repeat wp_prim.
  all: apply wp_call; intros w1 [e1|f1] _; [done|]; repeat wp_prim.
  all: apply wp_call; intros w2 [e2|f2] _; [done|]; repeat wp_prim.
  all: apply wp_conf_item; cbn [conf set_conf set_world]; rewrite lookup_insert_eq;
    repeat wp_prim.
  all: destruct (truthy kp); repeat wp_prim.
  all: try (destruct kp; repeat wp_prim; try done).
  all: apply wp_conf_item; cbn [conf set_conf set_world];
    rewrite lookup_insert_ne, lookup_insert_eq by done; repeat wp_prim; done.
Qed.

(** C5, as the specification words it, fails: with [GSSAPI,PLAIN] the
    PLAIN stanza still comes first in the login file. *)
Lemma stanza_order_counterexample :
  ¬ stanza_order_as_specified (Demo.cluster true true 0) VNone
      (Demo.app {[ "version" := VStr "0.9.0.1"; "sasl_mechanisms" := VStr "GSSAPI,PLAIN";
                   "sasl_users" := VStr "alice=secret" ]}).
Proof.
  intros H.
  specialize (H
    (__init__ (Demo.cluster true true 0) VNone
       (Demo.app {[ "version" := VStr "0.9.0.1"; "sasl_mechanisms" := VStr "GSSAPI,PLAIN";
                    "sasl_users" := VStr "alice=secret" ]})).1
    "GSSAPI,PLAIN" "alice=secret" [("alice", "secret")]
    ("kafka/localhost@REALM", "/tmp/kafka.keytab")).
  assert (spec_jaas ["GSSAPI"; "PLAIN"] [("alice", "secret")]
            ("kafka/localhost@REALM", "/tmp/kafka.keytab")
          ∈ [jaas_data (plain_stanza [("alice", "secret")]
                        ++ krb5_stanza "kafka/localhost@REALM" "/tmp/kafka.keytab")]) as Hin.
  { replace [jaas_data (plain_stanza [("alice", "secret")]
                        ++ krb5_stanza "kafka/localhost@REALM" "/tmp/kafka.keytab")]
      with (files_named "jaas_broker.conf"
        (__init__ (Demo.cluster true true 0) VNone
          (Demo.app {[ "version" := VStr "0.9.0.1"; "sasl_mechanisms" := VStr "GSSAPI,PLAIN";
                       "sasl_users" := VStr "alice=secret" ]})).1)
      by (vm_compute; reflexivity).
    apply H; try (vm_compute; reflexivity).
    - apply (bool_decide_unpack _). vm_compute. exact I.
    - apply (bool_decide_unpack _). vm_compute. exact I. }
  apply list_elem_of_singleton in Hin. vm_compute in Hin. discriminate Hin.
Qed.

Lemma plain_result_users mechs ucsv ups :
  "PLAIN" ∈ mechs → parse_users (Py.split "," ucsv) = Some ups →
  plain_result mechs (VStr ucsv) = inr (plain_stanza ups, []).
Proof.
  intros Hin Hp. unfold plain_result, Py.contains.
  rewrite bool_decide_eq_true_2 by done.
  destruct ucsv as [|c u]; [done|]. by rewrite Hp.
Qed.

(** C5, amended. When PLAIN and GSSAPI are both requested and the users
    are well formed, a construction that returns has written both stanzas
    inside the one outer block of the login file, the PLAIN stanza first
    and the Kerberos stanza of the issued principal and keytab second,
    whatever the order of the mechanisms in the CSV. *)
Theorem both_stanzas_fixed_order {E} (X : Collaborators E) kp (a a' : App E) mcsv ucsv ups :
  conf a !! "sasl_mechanisms" = Some (VStr mcsv) →
  "PLAIN" ∈ parse_sasl_mechs mcsv →
  "GSSAPI" ∈ parse_sasl_mechs mcsv →
  conf a !! "sasl_users" = Some (VStr ucsv) →
  parse_users (Py.split "," ucsv) = Some ups →
  __init__ X kp a = (a', inr tt) →
  ∃ k, kerberos a' = Some k
       ∧ CreateFile "jaas_broker.conf"
           (jaas_data (plain_stanza ups ++ krb5_stanza k.1 k.2)) ∈ trace a'.
Proof.
  intros Hm Hplain Hgss Hu Hups
    (a1 & a2 & mechs & ports & blob & Hrun & Hpub & Hc & Hp)%sasl_ok_inv.
  destruct (pub_listeners _ _ _ _ _ Hpub) as (lcsv & mcsv' & _ & Hm' & -> & _).
  rewrite Hm in Hm'. injection Hm' as <-.
  apply configure_sasl_run in Hc; [|by intros Hnil; rewrite Hnil in Hplain; apply elem_of_nil in Hplain].
  rewrite (late_lookup a a1) in Hc; [|apply Hpub|by apply (bool_decide_unpack _)..].
  rewrite Hu in Hc. cbn [default from_option id] in Hc.
  rewrite (plain_result_users _ _ ups) in Hc by done.
  destruct Hc as (a3 & r3 & Hg & Hc). unfold gssapi_step, Py.contains in Hg.
  rewrite bool_decide_eq_true_2 in Hg by done.
  apply sasl_gssapi_run in Hg as (_ & _ & _ & _ & Hg).
  destruct r3 as [e|blobs]; [by destruct Hc|].
  destruct Hg as (h & krb5 & p & k & _ & _ & -> & Hk & _).
  destruct Hc as (w & [e|path] & Hf & Hc); [done|].
  destruct Hc as (_ & _ & Htr & _ & _ & Hk2 & _).
  exists (p, k). split.
  - apply configure_properties_kerberos in Hp. congruence.
  - apply modifies_configure_properties in Hp as (_ & Hpre & _).
    eapply elem_of_prefix; [|exact Hpre]. rewrite Htr.
    apply elem_of_app; right. cbn [fst snd]. unfold jaas_data.
    rewrite <- !app_assoc. left.
Qed.

Lemma both_stanzas_fixed_order_witness :
  ∃ k, kerberos (__init__ (Demo.cluster true true 0) VNone
                   (Demo.app {[ "version" := VStr "0.9.0.1";
                                "sasl_mechanisms" := VStr "GSSAPI,PLAIN";
                                "sasl_users" := VStr "alice=secret" ]})).1 = Some k
       ∧ CreateFile "jaas_broker.conf"
           (jaas_data (plain_stanza [("alice", "secret")] ++ krb5_stanza k.1 k.2))
         ∈ trace (__init__ (Demo.cluster true true 0) VNone
                    (Demo.app {[ "version" := VStr "0.9.0.1";
                                 "sasl_mechanisms" := VStr "GSSAPI,PLAIN";
                                 "sasl_users" := VStr "alice=secret" ]})).1.
Proof.
  apply (both_stanzas_fixed_order (Demo.cluster true true 0) VNone
           (Demo.app {[ "version" := VStr "0.9.0.1";
                        "sasl_mechanisms" := VStr "GSSAPI,PLAIN";
                        "sasl_users" := VStr "alice=secret" ]})
           _ "GSSAPI,PLAIN" "alice=secret" [("alice", "secret")]).
  - vm_compute. reflexivity.
  - apply (bool_decide_unpack _). vm_compute. exact I.
  - apply (bool_decide_unpack _). vm_compute. exact I.
  - vm_compute. reflexivity.
  - vm_compute. reflexivity.
  - vm_compute. reflexivity.
Defined.

(** C8. When GSSAPI is among the requested mechanisms and the cluster has
    no Kerberos KDC application, the constructor raises: it never
    returns an application. *)
Theorem gssapi_requires_kdc {E} (X : Collaborators E) kp (a : App E) mcsv :
  conf a !! "sasl_mechanisms" = Some (VStr mcsv) →
  "GSSAPI" ∈ parse_sasl_mechs mcsv →
  (∀ w, find_app X (ByClass "KerberosKdcApp") w = None) →
  ∃ a' e, __init__ X kp a = (a', inl e).
Proof.
  intros Hm Hgss Hkdc.
  destruct (__init__ X kp a) as [a' [e|[]]] eqn:Hinit; [by eauto|]. exfalso.
  apply sasl_ok_inv in Hinit
    as (a1 & a2 & mechs & ports & blob & Hrun & Hpub & Hc & Hp).
  destruct (pub_listeners _ _ _ _ _ Hpub) as (lcsv & mcsv' & _ & Hm' & -> & _).
  rewrite Hm in Hm'. injection Hm' as <-.
  apply configure_sasl_run in Hc;
    [|by intros Hnil; rewrite Hnil in Hgss; apply elem_of_nil in Hgss].
  destruct (plain_result _ _) as [e|x]; [by destruct Hc|].
  destruct Hc as (a3 & r3 & Hg & Hc). unfold gssapi_step, Py.contains in Hg.
  rewrite bool_decide_eq_true_2 in Hg by done.
  apply sasl_gssapi_run in Hg as (_ & _ & _ & _ & Hg).
  destruct r3 as [e|blobs]; [by destruct Hc|].
  destruct Hg as (h & _ & _ & _ & Hfound & _). by rewrite Hkdc in Hfound.
Qed.

Lemma gssapi_requires_kdc_witness :
  ∃ a' e, __init__ (Demo.cluster true false 0) VNone
            (Demo.app {[ "version" := VStr "0.9.0.1"; "sasl_mechanisms" := VStr "GSSAPI" ]})
          = (a', inl e).
Proof.
  apply (gssapi_requires_kdc (Demo.cluster true false 0) VNone
           (Demo.app {[ "version" := VStr "0.9.0.1"; "sasl_mechanisms" := VStr "GSSAPI" ]})
           "GSSAPI").
  - vm_compute. reflexivity.
  - apply (bool_decide_unpack _). vm_compute. exact I.
  - intros w. reflexivity.
Defined.

(** C10. When PLAIN is among the mechanisms and some non-empty entry of
    [sasl_users] does not hold exactly one [=], the constructor raises and
    returns no application; when its first part has returned, the
    exception is [ValueError], and nothing was logged on the way: the only
    event after the first part is the debug line of the mechanisms. *)
Theorem malformed_users_value_error {E} (X : Collaborators E) kp (a : App E) mcsv ucsv up :
  conf a !! "sasl_mechanisms" = Some (VStr mcsv) →
  "PLAIN" ∈ parse_sasl_mechs mcsv →
  conf a !! "sasl_users" = Some (VStr ucsv) →
  up ∈ Py.split "," ucsv →
  up ≠ EmptyString →
  length (filter (λ c, c = "="%char) (chars up)) ≠ 1 →
  (∃ a' e, __init__ X kp a = (a', inl e))
  ∧ ∀ a1 mechs ports,
      listeners_phase X a = (a1, inr (mechs, ports)) →
      ∃ a', __init__ X kp a = (a', inl ValueError)
            ∧ trace a' = trace a1 ++ [Dbg "SASL mechanisms: %s" [AList mechs]]
            ∧ ∀ msg, Log msg ∈ trace a' → Log msg ∈ trace a.
Proof.
  intros Hm Hplain Hu Hup Hne Hcount.
  assert (plain_result (parse_sasl_mechs mcsv) (VStr ucsv) = inl ValueError) as Hres.
  { unfold plain_result, Py.contains. rewrite bool_decide_eq_true_2 by done.
    destruct ucsv as [|c u].
    { apply list_elem_of_singleton in Hup. done. }
    rewrite parse_users_none; [done|]. exists up. split; [done|].
    rewrite split_length. lia. }
  assert (∀ a1 mechs ports,
      listeners_phase X a = (a1, inr (mechs, ports)) →
      ∃ a', __init__ X kp a = (a', inl ValueError)
            ∧ trace a' = trace a1 ++ [Dbg "SASL mechanisms: %s" [AList mechs]]
            ∧ ∀ msg, Log msg ∈ trace a' → Log msg ∈ trace a) as Hmain.
  { intros a1 mechs ports Hrun.
    pose proof (listeners_phase_run X a a1 _ Hrun) as Hpub. cbn [fst snd] in Hpub.
    destruct (pub_listeners _ _ _ _ _ Hpub) as (lcsv & mcsv' & _ & Hm' & -> & _).
    rewrite Hm in Hm'. injection Hm' as <-.
    rewrite init_phases. unfold bind at 1. rewrite Hrun. cbn [fst].
    destruct (sasl_phase X kp (parse_sasl_mechs mcsv) a1) as [a' r] eqn:Hs.
    apply sasl_phase_run in Hs as (a2 & r2 & Hc & Hp).
    apply configure_sasl_run in Hc;
      [|by intros Hnil; rewrite Hnil in Hplain; apply elem_of_nil in Hplain].
    rewrite (late_lookup a a1) in Hc; [|apply Hpub|by apply (bool_decide_unpack _)..].
    rewrite Hu in Hc. cbn [default from_option id] in Hc. rewrite Hres in Hc.
    destruct Hc as [-> ->]. destruct Hp as [-> ->].
    eexists. split; [done|]. split; [done|].
    intros msg Hin. cbn in Hin.
    destruct (pub_trace _ _ _ _ _ Hpub) as (s & _ & Htr). rewrite Htr in Hin.
    rewrite !elem_of_app in Hin. destruct Hin as [[Hin|[Hin|Hin]]|Hin]; [done|..].
    - apply elem_of_replicate in Hin as [? _]. done.
    - apply list_elem_of_singleton in Hin. done.
    - apply list_elem_of_singleton in Hin. done. }
  split; [|done].
  destruct (listeners_phase X a) as [a1 [e|[mechs ports]]] eqn:Hrun.
  - rewrite init_phases. unfold bind at 1. rewrite Hrun. eauto.
  - destruct (Hmain a1 mechs ports eq_refl) as (a' & H & _). eauto.
Qed.

Lemma malformed_users_value_error_witness :
  (∃ a' e, __init__ (Demo.cluster true true 0) VNone
             (Demo.app {[ "version" := VStr "0.9.0.1"; "sasl_mechanisms" := VStr "PLAIN";
                          "sasl_users" := VStr "alice=secret,a=b=c" ]}) = (a', inl e))
  ∧ ∀ a1 mechs ports,
      listeners_phase (Demo.cluster true true 0)
        (Demo.app {[ "version" := VStr "0.9.0.1"; "sasl_mechanisms" := VStr "PLAIN";
                     "sasl_users" := VStr "alice=secret,a=b=c" ]})
      = (a1, inr (mechs, ports)) →
      ∃ a', __init__ (Demo.cluster true true 0) VNone
              (Demo.app {[ "version" := VStr "0.9.0.1"; "sasl_mechanisms" := VStr "PLAIN";
                           "sasl_users" := VStr "alice=secret,a=b=c" ]})
            = (a', inl ValueError)
            ∧ trace a' = trace a1 ++ [Dbg "SASL mechanisms: %s" [AList mechs]]
            ∧ ∀ msg, Log msg ∈ trace a' →
                Log msg ∈ trace (Demo.app {[ "version" := VStr "0.9.0.1";
                                             "sasl_mechanisms" := VStr "PLAIN";
                                             "sasl_users" := VStr "alice=secret,a=b=c" ]}).
Proof.
  apply (malformed_users_value_error (Demo.cluster true true 0) VNone
           (Demo.app {[ "version" := VStr "0.9.0.1"; "sasl_mechanisms" := VStr "PLAIN";
                        "sasl_users" := VStr "alice=secret,a=b=c" ]})
           "PLAIN" "alice=secret,a=b=c" "a=b=c").
  - vm_compute. reflexivity.
  - apply (bool_decide_unpack _). vm_compute. exact I.
  - vm_compute. reflexivity.
  - apply (bool_decide_unpack _). vm_compute. exact I.
  - discriminate.
  - vm_compute. lia.
Defined.

(** C4. When the deploy script is there and the deploy command returns a
    code other than zero, [deploy] raises an [Exception] whose message
    holds the command and the code, and the configuration, [start_cmd]
    included, is the one from before the call. *)
Theorem deploy_nonzero_exit {E} (X : Collaborators E) (a : App E) root w0 v w r :
  mkpath X "KafkaBrokerApp" (ext a) = (w0, inr root) →
  conf a !! "version" = Some (VStr v) →
  os_path_exists X (resource_path X "deploy.sh" w0) w0 = true →
  os_system X (deploy_cmd (resource_path X "deploy.sh" w0) (VStr v)
                 (default VNone (conf a !! "kafka_path"))
                 (Py.path_join root ["kafka"; v])) w0 = (w, r) →
  r ≠ 0%Z →
  ∃ a',
    deploy X a =
      (a', inl (Exception
         ("Deploy " +:+ Py.DQ +:+
          deploy_cmd (resource_path X "deploy.sh" w0) (VStr v)
            (default VNone (conf a !! "kafka_path")) (Py.path_join root ["kafka"; v])
          +:+ Py.DQ +:+ " returned exit code " +:+ Py.fmt_d r)))
    ∧ conf a' = conf a
    ∧ conf a' !! "start_cmd" = conf a !! "start_cmd".
Proof.
  intros Hmk Hv Hex Hsys Hr.
  set (cmd := deploy_cmd _ _ _ _) in *.
  cut (wp (deploy X) (λ _ _, False)
         (λ e a', e = Exception (deploy_failure cmd r) ∧ conf a' = conf a) a).
  { unfold wp. destruct (deploy X a) as [a' [e|x]]; [|done].
    intros [-> Hc]. exists a'. split; [done|]. split; [done|]. by rewrite Hc. }
  unfold deploy, get, dbg, system. wp_prim.
  apply wp_call. intros w1 r1 Hmk'. rewrite Hmk in Hmk'. injection Hmk' as <- <-.
  repeat wp_prim. cbn [conf set_world]. rewrite Hv. cbn [default from_option id path_arg].
  repeat wp_prim. cbn [ext set_world]. rewrite Hex. repeat wp_prim.
  cbn [conf set_world]. rewrite Hv. cbn [default from_option id]. fold cmd.
  apply wp_call. intros w2 r2 Hsys'. cbn [ext set_world] in Hsys'.
  destruct (os_system X cmd w0) as [w3 r3] eqn:Hs. injection Hsys as -> ->.
  injection Hsys' as <- <-. repeat wp_prim.
  rewrite bool_decide_eq_true_2 by done. wp_prim. done.
Qed.

Lemma deploy_nonzero_exit_witness :
  ∃ a',
    deploy (Demo.cluster true true 256)
      (Demo.app {[ "version" := VStr "0.9.0.1"; "start_cmd" := VStr "kafka-server-start.sh x" ]})
    = (a', inl (Exception
         ("Deploy " +:+ Py.DQ +:+
          deploy_cmd (resource_path (Demo.cluster true true 256) "deploy.sh" 9092%Z)
            (VStr "0.9.0.1")
            (default VNone
               (conf (Demo.app {[ "version" := VStr "0.9.0.1";
                                  "start_cmd" := VStr "kafka-server-start.sh x" ]})
                  !! "kafka_path"))
            (Py.path_join "/tmp/KafkaBrokerApp" ["kafka"; "0.9.0.1"])
          +:+ Py.DQ +:+ " returned exit code " +:+ Py.fmt_d 256)))
    ∧ conf a' = conf (Demo.app {[ "version" := VStr "0.9.0.1";
                                  "start_cmd" := VStr "kafka-server-start.sh x" ]})
    ∧ conf a' !! "start_cmd"
      = conf (Demo.app {[ "version" := VStr "0.9.0.1";
                          "start_cmd" := VStr "kafka-server-start.sh x" ]}) !! "start_cmd".
Proof.
  apply (deploy_nonzero_exit (Demo.cluster true true 256)
           (Demo.app {[ "version" := VStr "0.9.0.1";
                        "start_cmd" := VStr "kafka-server-start.sh x" ]})
           "/tmp/KafkaBrokerApp" 9092%Z "0.9.0.1" 9092%Z 256%Z).
  - vm_compute. reflexivity.
  - vm_compute. reflexivity.
  - vm_compute. reflexivity.
  - vm_compute. reflexivity.
  - discriminate.
Defined.

(** ** Further properties of the methods *)

Lemma lookup_setdefault k v (c : gmap string value) k' :
  setdefault k v c !! k' =
    if decide (k = k') then Some (default v (c !! k)) else c !! k'.
Proof.
  unfold setdefault. destruct (decide (k = k')) as [<-|Hne].
  - destruct (c !! k) as [x|] eqn:Hk.
    + rewrite bool_decide_eq_true_2 by eauto. by rewrite Hk.
    + rewrite bool_decide_eq_false_2 by (by intros [? ?]). by rewrite lookup_insert_eq.
  - destruct (bool_decide _); [done|]. by rewrite lookup_insert_ne.
Qed.

Lemma modifies_configure_sasl_jaas {E} (X : Collaborators E) mechs :
  modifies ["jaas_file"] (configure_sasl X mechs).
Proof.
  unfold configure_sasl, sasl_plain, sasl_gssapi, plain_users, dbg, log, env_add,
    len, str_method, handle_conf, item.
  modifies_tac.
Qed.

(** The whole of a construction that returns, block by block. *)
Lemma init_ok_blocks {E} (X : Collaborators E) kp (a a' : App E) :
  __init__ X kp a = (a', inr tt) →
  ∃ a1 a2 mechs ports blob h d f l,
    listeners_phase X a = (a1, inr (mechs, ports))
    ∧ published X a a1 mechs ports
    ∧ configure_sasl X mechs (set_conf (insert "kafka_path" kp) a1) = (a2, inr blob)
    ∧ (∀ k, k ≠ "jaas_file" → conf a2 !! k = conf (set_conf (insert "kafka_path" kp) a1) !! k)
    ∧ zk a2 = Some h
    ∧ find_app X (ByName "ZookeeperApp") (ext a) = Some h
    ∧ conf a' =
        <["stop_cmd" := VNone]>
          (<["start_cmd" := VStr (start_sh kp +:+ " " +:+ f)]>
             (<["log4j_file" := VStr l]>
                (<["conf_file" := VStr f]>
                   (with_properties d (default VNone (app_conf h !! "address")) (conf a2)))))
    ∧ trace a' = trace a2 ++
        properties_events
          (with_properties d (default VNone (app_conf h !! "address")) (conf a2)) blob f l.
Proof.
  intros (a1 & a2 & mechs & ports & blob & Hrun & Hpub & Hc & Hp)%sasl_ok_inv.
  apply configure_properties_run in Hp as (h & d & f & l & Hzk & Hconf & Htr).
  pose proof (modifies_configure_sasl_jaas X mechs _ _ _ Hc) as (Hk & _ & _ & _ & Hz).
  destruct (pub_zk _ _ _ _ _ Hpub) as (h' & Hfind & Hz1).
  exists a1, a2, mechs, ports, blob, h, d, f, l. split_and!; try done.
  - intros k Hne. apply Hk. by intros ->%list_elem_of_singleton.
  - cbn in Hz. congruence.
Qed.

(** X1. A construction that returns has filled in the defaults: the
    partitions count is the one given, or 3; the replication factor is the
    one given, or 1; the stop command is [None]; [kafka_path] holds the
    argument of the constructor; [zk_connect] holds the address of the
    Zookeeper application, or [None] when it publishes none. *)
Theorem construction_defaults {E} (X : Collaborators E) kp (a a' : App E) :
  __init__ X kp a = (a', inr tt) →
  conf a' !! "num_partitions" = Some (default (VInt 3) (conf a !! "num_partitions"))
  ∧ conf a' !! "replication_factor" = Some (default (VInt 1) (conf a !! "replication_factor"))
  ∧ conf a' !! "stop_cmd" = Some VNone
  ∧ conf a' !! "kafka_path" = Some kp
  ∧ ∃ h, find_app X (ByName "ZookeeperApp") (ext a) = Some h
         ∧ conf a' !! "zk_connect" = Some (default VNone (app_conf h !! "address")).
Proof.
  intros (a1 & a2 & mechs & ports & blob & h & d & f & l & _ & Hpub & _ & Hk & _ & Hfind
          & Hconf & _)%init_ok_blocks.
  rewrite Hconf. unfold with_properties.
  assert (∀ k, k ∉ early_keys → k ≠ "kafka_path" → k ≠ "jaas_file" →
            conf a2 !! k = conf a !! k) as Hold.
  { intros k H1 H2 H3. rewrite Hk by done. by apply late_lookup; [apply Hpub|..]. }
  split_and!.
  - rewrite !lookup_insert_ne by done. rewrite lookup_setdefault.
    rewrite decide_False by done. rewrite lookup_insert_ne by done.
    rewrite lookup_setdefault, decide_True by done.
    rewrite lookup_insert_ne by done.
    rewrite Hold; [done|by apply (bool_decide_unpack _)|done..].
  - rewrite !lookup_insert_ne by done. rewrite lookup_setdefault, decide_True by done.
    rewrite lookup_insert_ne by done. rewrite lookup_setdefault, decide_False by done.
    rewrite lookup_insert_ne by done.
    rewrite Hold; [done|by apply (bool_decide_unpack _)|done..].
  - by rewrite lookup_insert_eq.
  - rewrite !lookup_insert_ne by done. rewrite lookup_setdefault, decide_False by done.
    rewrite lookup_insert_ne by done. rewrite lookup_setdefault, decide_False by done.
    rewrite lookup_insert_ne by done. rewrite Hk by done. cbn.
    by rewrite lookup_insert_eq.
  - exists h. split; [done|]. rewrite !lookup_insert_ne by done.
    rewrite lookup_setdefault, decide_False by done. by rewrite lookup_insert_eq.
Qed.

Lemma construction_defaults_witness :
  conf (__init__ (Demo.cluster true true 0) VNone
          (Demo.app {[ "version" := VStr "0.9.0.1"; "num_partitions" := VInt 7 ]})).1
    !! "num_partitions"
  = Some (default (VInt 3)
            (conf (Demo.app {[ "version" := VStr "0.9.0.1"; "num_partitions" := VInt 7 ]})
               !! "num_partitions"))
  ∧ conf (__init__ (Demo.cluster true true 0) VNone
          (Demo.app {[ "version" := VStr "0.9.0.1"; "num_partitions" := VInt 7 ]})).1
    !! "replication_factor"
  = Some (default (VInt 1)
            (conf (Demo.app {[ "version" := VStr "0.9.0.1"; "num_partitions" := VInt 7 ]})
               !! "replication_factor"))
  ∧ conf (__init__ (Demo.cluster true true 0) VNone
          (Demo.app {[ "version" := VStr "0.9.0.1"; "num_partitions" := VInt 7 ]})).1
    !! "stop_cmd" = Some VNone
  ∧ conf (__init__ (Demo.cluster true true 0) VNone
          (Demo.app {[ "version" := VStr "0.9.0.1"; "num_partitions" := VInt 7 ]})).1
    !! "kafka_path" = Some VNone
  ∧ ∃ h, find_app (Demo.cluster true true 0) (ByName "ZookeeperApp")
           (ext (Demo.app {[ "version" := VStr "0.9.0.1"; "num_partitions" := VInt 7 ]}))
         = Some h
         ∧ conf (__init__ (Demo.cluster true true 0) VNone
                   (Demo.app {[ "version" := VStr "0.9.0.1"; "num_partitions" := VInt 7 ]})).1
             !! "zk_connect" = Some (default VNone (app_conf h !! "address")).
Proof.
  apply (construction_defaults (Demo.cluster true true 0) VNone
           (Demo.app {[ "version" := VStr "0.9.0.1"; "num_partitions" := VInt 7 ]})).
  vm_compute. reflexivity.
Defined.

(** X2. A construction that returns has stored the start command: the
    start script, a space and the path of the rendered
    [server.properties], which is the path [create_file_from_template]
    answered when it was called, after the log directory was created, in
    the state the SASL configuration left, with the configuration of the
    properties and the SASL directives; the same path is stored under
    [conf_file]. The script is [kafka-server-start.sh] when [kafka_path]
    is [None] or empty, and [bin/kafka-server-start.sh] joined to
    [kafka_path] otherwise. *)
Theorem start_command {E} (X : Collaborators E) kp (a a' : App E) :
  __init__ X kp a = (a', inr tt) →
  ∃ a1 a2 mechs ports blob h d w1 f w2,
    listeners_phase X a = (a1, inr (mechs, ports))
    ∧ configure_sasl X mechs (set_conf (insert "kafka_path" kp) a1) = (a2, inr blob)
    ∧ find_app X (ByName "ZookeeperApp") (ext a) = Some h
    ∧ create_dir X "logs" (ext a2) = (w1, inr d)
    ∧ create_file_from_template X "server.properties"
        (with_properties d (default VNone (app_conf h !! "address")) (conf a2))
        (Some (Py.join Py.LF blob)) None w1 = (w2, inr f)
    ∧ conf a' !! "conf_file" = Some (VStr f)
    ∧ (truthy kp = false →
       conf a' !! "start_cmd" = Some (VStr ("kafka-server-start.sh" +:+ " " +:+ f)))
    ∧ (∀ s, kp = VStr s → s ≠ EmptyString →
       conf a' !! "start_cmd" =
         Some (VStr (Py.path_join s ["bin"; "kafka-server-start.sh"] +:+ " " +:+ f))).
Proof.
  intros (a1 & a2 & mechs & ports & blob & Hrun & Hpub & Hc & Hp)%sasl_ok_inv.
  apply configure_properties_calls in Hp
    as (h & d & f & l & w1 & w2 & Hzk & Hd & Hf & _ & Hcf & _ & Hstart).
  pose proof (modifies_configure_sasl_jaas X mechs _ _ _ Hc) as (_ & _ & _ & _ & Hz).
  destruct (pub_zk _ _ _ _ _ Hpub) as (h' & Hfind & Hz1).
  cbn in Hz. assert (h' = h) as -> by congruence.
  exists a1, a2, mechs, ports, blob, h, d, w1, f, w2. split_and!; try done.
  - intros Hkp. rewrite Hstart.
    destruct kp as [s|n|]; cbn in *; [|done..].
    destruct (bool_decide (s = EmptyString)); done.
  - intros s -> Hs. rewrite Hstart. cbn. by rewrite bool_decide_eq_false_2.
Qed.

Lemma start_command_witness :
  ∃ a1 a2 mechs ports blob h d w1 f w2,
    listeners_phase (Demo.cluster true true 0) (Demo.app {[ "version" := VStr "trunk" ]})
    = (a1, inr (mechs, ports))
    ∧ configure_sasl (Demo.cluster true true 0) mechs
        (set_conf (insert "kafka_path" (VStr "/opt/kafka")) a1) = (a2, inr blob)
    ∧ find_app (Demo.cluster true true 0) (ByName "ZookeeperApp")
        (ext (Demo.app {[ "version" := VStr "trunk" ]})) = Some h
    ∧ create_dir (Demo.cluster true true 0) "logs" (ext a2) = (w1, inr d)
    ∧ create_file_from_template (Demo.cluster true true 0) "server.properties"
        (with_properties d (default VNone (app_conf h !! "address")) (conf a2))
        (Some (Py.join Py.LF blob)) None w1 = (w2, inr f)
    ∧ conf (__init__ (Demo.cluster true true 0) (VStr "/opt/kafka")
              (Demo.app {[ "version" := VStr "trunk" ]})).1 !! "conf_file" = Some (VStr f)
    ∧ (truthy (VStr "/opt/kafka") = false →
       conf (__init__ (Demo.cluster true true 0) (VStr "/opt/kafka")
               (Demo.app {[ "version" := VStr "trunk" ]})).1 !! "start_cmd"
       = Some (VStr ("kafka-server-start.sh" +:+ " " +:+ f)))
    ∧ (∀ s, VStr "/opt/kafka" = VStr s → s ≠ EmptyString →
       conf (__init__ (Demo.cluster true true 0) (VStr "/opt/kafka")
               (Demo.app {[ "version" := VStr "trunk" ]})).1 !! "start_cmd"
       = Some (VStr (Py.path_join s ["bin"; "kafka-server-start.sh"] +:+ " " +:+ f))).
Proof.
  apply (start_command (Demo.cluster true true 0) (VStr "/opt/kafka")
           (Demo.app {[ "version" := VStr "trunk" ]})).
  vm_compute. reflexivity.
Defined.

(** X3. A construction that returns has renamed the version [master] to
    [trunk] and left every other version as it was. *)
Theorem version_master_is_trunk {E} (X : Collaborators E) kp (a a' : App E) :
  __init__ X kp a = (a', inr tt) →
  ∃ v, conf a !! "version" = Some v
       ∧ conf a' !! "version" = Some (if decide (v = VStr "master") then VStr "trunk" else v).
Proof.
  intros (a1 & mechs & ports & _ & Hpub & Hs)%init_ok_inv.
  apply modifies_sasl_phase in Hs as (Hconf & _).
  destruct (pub_version _ _ _ _ _ Hpub) as (v & Hv & Hv1).
  exists v. split; [done|]. rewrite Hconf by (by apply (bool_decide_unpack _)). done.
Qed.

Lemma version_master_is_trunk_witness :
  ∃ v, conf (Demo.app {[ "version" := VStr "master" ]}) !! "version" = Some v
       ∧ conf (__init__ (Demo.cluster true true 0) VNone
                 (Demo.app {[ "version" := VStr "master" ]})).1 !! "version"
         = Some (if decide (v = VStr "master") then VStr "trunk" else v).
Proof.
  apply (version_master_is_trunk (Demo.cluster true true 0) VNone
           (Demo.app {[ "version" := VStr "master" ]})).
  vm_compute. reflexivity.
Defined.

(** X4. Without a [version] in the configuration the constructor raises
    [KeyError('version')] right after the Zookeeper application is found:
    the configuration is unchanged and no port has been asked for. *)
Theorem version_required {E} (X : Collaborators E) kp (a : App E) h :
  find_app X (ByName "ZookeeperApp") (ext a) = Some h →
  conf a !! "version" = None →
  ∃ a', __init__ X kp a = (a', inl (KeyError "version"))
        ∧ conf a' = conf a ∧ trace a' = trace a.
Proof.
  intros Hzk Hv. unfold __init__, resolve_zookeeper, normalise_version, bind, attr,
    zk_store, conf_item.
  rewrite Hzk. cbn [ret conf set_zk]. rewrite Hv. eauto.
Qed.

Lemma version_required_witness :
  ∃ a', __init__ (Demo.cluster true true 0) VNone (Demo.app ∅)
        = (a', inl (KeyError "version"))
        ∧ conf a' = conf (Demo.app ∅) ∧ trace a' = trace (Demo.app ∅).
Proof.
  apply (version_required (Demo.cluster true true 0) VNone (Demo.app ∅) Demo.zookeeper).
  - reflexivity.
  - vm_compute. reflexivity.
Defined.

(** X5. When no SASL mechanism is requested, a construction that returns
    has created no login file and set no [KAFKA_OPTS]: after the ports and
    the debug line of the listeners its only events are the log directory,
    the two rendered templates, with nothing appended to
    [server.properties], and [KAFKA_LOG4J_OPTS]; and [jaas_file] is not
    stored. *)
Theorem no_mechanism_no_login_file {E} (X : Collaborators E) kp (a a' : App E) mcsv :
  default (VStr EmptyString) (conf a !! "sasl_mechanisms") = VStr mcsv →
  parse_sasl_mechs mcsv = [] →
  __init__ X kp a = (a', inr tt) →
  (∃ n s c f l,
     trace a' = trace a ++ replicate n PortNext ++ [Dbg "Listeners: %s" [AStr s]]
                ++ properties_events c [] f l)
  ∧ (∀ name data, CreateFile name data ∈ trace a' → CreateFile name data ∈ trace a)
  ∧ (∀ v, EnvAdd "KAFKA_OPTS" v ∈ trace a' → EnvAdd "KAFKA_OPTS" v ∈ trace a)
  ∧ conf a' !! "jaas_file" = conf a !! "jaas_file".
Proof.
  intros Hm Hnone (a1 & a2 & mechs & ports & blob & h & d & f & l & _ & Hpub & Hc & _ & _ & _
                   & Hconf & Htr)%init_ok_blocks.
  destruct (pub_listeners _ _ _ _ _ Hpub) as (lcsv & mcsv' & _ & Hm' & -> & _).
  rewrite Hm in Hm'. injection Hm' as <-. rewrite Hnone in Hc.
  rewrite configure_sasl_none in Hc. injection Hc as <- <-.
  destruct (pub_trace _ _ _ _ _ Hpub) as (s & _ & Htr1).
  cbn [trace set_conf] in Htr. rewrite Htr1 in Htr.
  assert (trace a' = trace a ++ replicate (length ports) PortNext
            ++ [Dbg "Listeners: %s" [AStr s]]
            ++ properties_events
                 (with_properties d (default VNone (app_conf h !! "address"))
                    (conf (set_conf (insert "kafka_path" kp) a1))) [] f l) as Htrace.
  { rewrite Htr. by rewrite <- !app_assoc. }
  split_and!.
  - eauto 10.
  - intros name data. rewrite Htrace, !elem_of_app. intros [?|[Hin|[Hin|Hin]]]; [done|..].
    + by apply elem_of_replicate in Hin as [? _].
    + by apply list_elem_of_singleton in Hin.
    + unfold properties_events in Hin. rewrite !elem_of_cons in Hin.
      destruct Hin as [?|[?|[?|[?|Hin]]]]; try done. by apply elem_of_nil in Hin.
  - intros v. rewrite Htrace, !elem_of_app. intros [?|[Hin|[Hin|Hin]]]; [done|..].
    + by apply elem_of_replicate in Hin as [? _].
    + by apply list_elem_of_singleton in Hin.
    + unfold properties_events in Hin. rewrite !elem_of_cons in Hin.
      destruct Hin as [?|[?|[?|[?|Hin]]]]; try done. by apply elem_of_nil in Hin.
  - rewrite Hconf. rewrite !lookup_insert_ne by done. unfold with_properties.
    rewrite lookup_setdefault, decide_False by done. rewrite lookup_insert_ne by done.
    rewrite lookup_setdefault, decide_False by done. rewrite lookup_insert_ne by done.
    apply late_lookup; [apply Hpub|by apply (bool_decide_unpack _)|done].
Qed.

Lemma no_mechanism_no_login_file_witness :
  (∃ n s c f l,
     trace (__init__ (Demo.cluster true true 0) VNone
              (Demo.app {[ "version" := VStr "0.9.0.1"; "sasl_mechanisms" := VStr " , " ]})).1
     = trace (Demo.app {[ "version" := VStr "0.9.0.1"; "sasl_mechanisms" := VStr " , " ]})
       ++ replicate n PortNext ++ [Dbg "Listeners: %s" [AStr s]]
       ++ properties_events c [] f l)
  ∧ (∀ name data,
       CreateFile name data
         ∈ trace (__init__ (Demo.cluster true true 0) VNone
                    (Demo.app {[ "version" := VStr "0.9.0.1";
                                 "sasl_mechanisms" := VStr " , " ]})).1 →
       CreateFile name data
         ∈ trace (Demo.app {[ "version" := VStr "0.9.0.1"; "sasl_mechanisms" := VStr " , " ]}))
  ∧ (∀ v,
       EnvAdd "KAFKA_OPTS" v
         ∈ trace (__init__ (Demo.cluster true true 0) VNone
                    (Demo.app {[ "version" := VStr "0.9.0.1";
                                 "sasl_mechanisms" := VStr " , " ]})).1 →
       EnvAdd "KAFKA_OPTS" v
         ∈ trace (Demo.app {[ "version" := VStr "0.9.0.1"; "sasl_mechanisms" := VStr " , " ]}))
  ∧ conf (__init__ (Demo.cluster true true 0) VNone
            (Demo.app {[ "version" := VStr "0.9.0.1"; "sasl_mechanisms" := VStr " , " ]})).1
      !! "jaas_file"
    = conf (Demo.app {[ "version" := VStr "0.9.0.1"; "sasl_mechanisms" := VStr " , " ]})
        !! "jaas_file".
Proof.
  apply (no_mechanism_no_login_file (Demo.cluster true true 0) VNone
           (Demo.app {[ "version" := VStr "0.9.0.1"; "sasl_mechanisms" := VStr " , " ]})
           _ " , ").
  - vm_compute. reflexivity.
  - vm_compute. reflexivity.
  - vm_compute. reflexivity.
Defined.

(** What a SASL configuration that returns has done, step by step. *)
Lemma configure_sasl_ok {E} (X : Collaborators E) mechs (a a2 : App E) blob :
  mechs ≠ [] →
  configure_sasl X mechs a = (a2, inr blob) →
  ∃ pl evs a3 blobs path,
    plain_result mechs (default (VStr EmptyString) (conf a !! "sasl_users")) = inr (pl, evs)
    ∧ gssapi_step X mechs [mechanisms_line mechs] (["KafkaServer {"] ++ pl)
        (logged evs (logged [Dbg "SASL mechanisms: %s" [AList mechs]] a))
      = (a3, inr blobs)
    ∧ blob = blobs.1
    ∧ trace a2 = trace a3 ++ jaas_events (Py.join Py.LF (blobs.2 ++ ["};" +:+ Py.LF])) path
    ∧ kerberos a2 = kerberos a3.
Proof.
  intros Hne Hc. apply configure_sasl_run in Hc; [|done].
  destruct (plain_result _ _) as [e|[pl evs]]; [by destruct Hc|].
  destruct Hc as (a3 & [e|blobs] & Hg & Hc); [by destruct Hc|].
  destruct Hc as (w & [e|path] & Hf & Hc); [done|].
  destruct Hc as (Hb & _ & Htr & _ & _ & Hk & _). injection Hb as ->.
  by exists pl, evs, a3, blobs, path.
Qed.

(** X6. When a SASL mechanism is requested, a construction that returns
    has rendered [server.properties] with the SASL directives appended:
    the enabled mechanisms, comma-joined in the order of the CSV, and,
    when GSSAPI is among them, the Kerberos service name [kafka] on a
    second line. *)
Theorem sasl_directives {E} (X : Collaborators E) kp (a a' : App E) mcsv :
  default (VStr EmptyString) (conf a !! "sasl_mechanisms") = VStr mcsv →
  parse_sasl_mechs mcsv ≠ [] →
  __init__ X kp a = (a', inr tt) →
  ∃ c, CreateFileFromTemplate "server.properties" c
         (Some (Py.join Py.LF
            (("sasl.enabled.mechanisms=" +:+ Py.join "," (parse_sasl_mechs mcsv))
             :: (if Py.contains "GSSAPI" (parse_sasl_mechs mcsv)
                 then ["sasl.kerberos.service.name=kafka"] else []))))
         None ∈ trace a'.
Proof.
  intros Hm Hne (a1 & a2 & mechs & ports & blob & h & d & f & l & _ & Hpub & Hc & _ & _ & _
                 & _ & Htr)%init_ok_blocks.
  destruct (pub_listeners _ _ _ _ _ Hpub) as (lcsv & mcsv' & _ & Hm' & -> & _).
  rewrite Hm in Hm'. injection Hm' as <-.
  apply configure_sasl_ok in Hc as (pl & evs & a3 & blobs & path & _ & Hg & -> & _); [|done].
  assert (blobs.1 = ("sasl.enabled.mechanisms=" +:+ Py.join "," (parse_sasl_mechs mcsv))
             :: (if Py.contains "GSSAPI" (parse_sasl_mechs mcsv)
                 then ["sasl.kerberos.service.name=kafka"] else [])) as Hblob.
  { unfold gssapi_step in Hg. destruct (Py.contains "GSSAPI" _).
    - apply sasl_gssapi_run in Hg as (_ & _ & _ & _ & (? & ? & ? & ? & _ & _ & -> & _)). done.
    - by injection Hg as <- <-. }
  rewrite Hblob in Htr. eexists. rewrite Htr. apply elem_of_app; right.
  unfold properties_events. right. left.
Qed.

Lemma sasl_directives_witness :
  ∃ c, CreateFileFromTemplate "server.properties" c
         (Some (Py.join Py.LF
            (("sasl.enabled.mechanisms=" +:+ Py.join "," (parse_sasl_mechs "GSSAPI, PLAIN"))
             :: (if Py.contains "GSSAPI" (parse_sasl_mechs "GSSAPI, PLAIN")
                 then ["sasl.kerberos.service.name=kafka"] else []))))
         None
       ∈ trace (__init__ (Demo.cluster true true 0) VNone
                  (Demo.app {[ "version" := VStr "0.9.0.1";
                               "sasl_mechanisms" := VStr "GSSAPI, PLAIN";
                               "sasl_users" := VStr "alice=secret" ]})).1.
Proof.
  apply (sasl_directives (Demo.cluster true true 0) VNone
           (Demo.app {[ "version" := VStr "0.9.0.1";
                        "sasl_mechanisms" := VStr "GSSAPI, PLAIN";
                        "sasl_users" := VStr "alice=secret" ]})).
  - vm_compute. reflexivity.
  - vm_compute. discriminate.
  - vm_compute. reflexivity.
Defined.

(** X7. When GSSAPI is requested, a construction that returns has found
    a KDC application with a [krb5_conf] in the external state the
    listeners left, has set [KRB5_CONFIG] and the two Kerberos options of
    [KAFKA_OPTS], has asked that KDC for the principal of the service
    [kafka] on its own node, in that order, and keeps the principal and
    keytab the KDC answered. *)
Theorem gssapi_wiring {E} (X : Collaborators E) kp (a a' : App E) mcsv :
  default (VStr EmptyString) (conf a !! "sasl_mechanisms") = VStr mcsv →
  "GSSAPI" ∈ parse_sasl_mechs mcsv →
  __init__ X kp a = (a', inr tt) →
  ∃ a1 ports h krb5 w k t1 t2,
    listeners_phase X a = (a1, inr (parse_sasl_mechs mcsv, ports))
    ∧ find_app X (ByClass "KerberosKdcApp") (ext a1) = Some h
    ∧ app_conf h !! "krb5_conf" = Some krb5
    ∧ add_principal X h "kafka" (node_name a) (ext a1) = (w, inr k)
    ∧ kerberos a' = Some k
    ∧ trace a1 `prefix_of` t1
    ∧ trace a' = t1 ++
        [EnvAdd "KRB5_CONFIG" krb5;
         EnvAdd "KAFKA_OPTS" (VStr ("-Djava.security.krb5.conf=" +:+ str krb5));
         EnvAdd "KAFKA_OPTS" (VStr "-Dsun.security.krb5.debug=true");
         AddPrincipal "kafka" (node_name a)] ++ t2.
Proof.
  intros Hm Hgss (a1 & a2 & mechs & ports & blob & Hrun & Hpub & Hc & Hp)%sasl_ok_inv.
  destruct (pub_listeners _ _ _ _ _ Hpub) as (lcsv & mcsv' & _ & Hm' & -> & _).
  rewrite Hm in Hm'. injection Hm' as <-.
  assert (parse_sasl_mechs mcsv ≠ []) as Hne
    by (intros Hnil; rewrite Hnil in Hgss; by apply elem_of_nil in Hgss).
  apply configure_sasl_ok in Hc as (pl & evs & a3 & blobs & path & _ & Hg & -> & Htr2 & Hk);
    [|done].
  unfold gssapi_step, Py.contains in Hg. rewrite bool_decide_eq_true_2 in Hg by done.
  apply sasl_gssapi_principal in Hg as (h & krb5 & k & Hf & Hkrb & Hadd & Hk3 & -> & Htr3).
  cbn [node_name logged set_world set_conf ext trace] in Hf, Hadd, Htr3.
  rewrite (pub_node _ _ _ _ _ Hpub) in Hadd, Htr3.
  pose proof (configure_properties_kerberos _ _ _ _ _ _ Hp) as Hk'.
  apply modifies_configure_properties in Hp as (_ & (t & Htr) & _).
  exists a1, ports, h, krb5, (ext a3), k,
    ((trace a1 ++ [Dbg "SASL mechanisms: %s" [AList (parse_sasl_mechs mcsv)]]) ++ evs),
    (jaas_events
       (Py.join Py.LF
          ((["KafkaServer {"] ++ pl) ++ krb5_stanza k.1 k.2 ++ ["};" +:+ Py.LF])) path ++ t).
  split_and!; [done|exact Hf|done|exact Hadd|congruence| |].
  - rewrite <- app_assoc. by apply prefix_app_r.
  - rewrite Htr, Htr2, Htr3. unfold gssapi_events. cbn [snd].
    rewrite <- (app_assoc (["KafkaServer {"] ++ pl)). by rewrite <- !app_assoc.
Qed.

Lemma gssapi_wiring_witness :
  ∃ a1 ports h krb5 w k t1 t2,
    listeners_phase (Demo.cluster true true 0)
      (Demo.app {[ "version" := VStr "0.9.0.1"; "sasl_mechanisms" := VStr "GSSAPI" ]})
    = (a1, inr (parse_sasl_mechs "GSSAPI", ports))
    ∧ find_app (Demo.cluster true true 0) (ByClass "KerberosKdcApp") (ext a1) = Some h
    ∧ app_conf h !! "krb5_conf" = Some krb5
    ∧ add_principal (Demo.cluster true true 0) h "kafka"
        (node_name (Demo.app {[ "version" := VStr "0.9.0.1";
                                "sasl_mechanisms" := VStr "GSSAPI" ]})) (ext a1)
      = (w, inr k)
    ∧ kerberos (__init__ (Demo.cluster true true 0) VNone
                  (Demo.app {[ "version" := VStr "0.9.0.1";
                               "sasl_mechanisms" := VStr "GSSAPI" ]})).1 = Some k
    ∧ trace a1 `prefix_of` t1
    ∧ trace (__init__ (Demo.cluster true true 0) VNone
               (Demo.app {[ "version" := VStr "0.9.0.1";
                            "sasl_mechanisms" := VStr "GSSAPI" ]})).1
      = t1 ++
        [EnvAdd "KRB5_CONFIG" krb5;
         EnvAdd "KAFKA_OPTS" (VStr ("-Djava.security.krb5.conf=" +:+ str krb5));
         EnvAdd "KAFKA_OPTS" (VStr "-Dsun.security.krb5.debug=true");
         AddPrincipal "kafka"
           (node_name (Demo.app {[ "version" := VStr "0.9.0.1";
                                   "sasl_mechanisms" := VStr "GSSAPI" ]}))] ++ t2.
Proof.
  apply (gssapi_wiring (Demo.cluster true true 0) VNone
           (Demo.app {[ "version" := VStr "0.9.0.1"; "sasl_mechanisms" := VStr "GSSAPI" ]})
           _ "GSSAPI").
  - vm_compute. reflexivity.
  - apply (bool_decide_unpack _). vm_compute. exact I.
  - vm_compute. reflexivity.
Defined.

Lemma join_split_replace c d s :
  Py.join (String d EmptyString) (Py.split c s) = replace_char c d s.
Proof.
  induction s as [|e s IH]; [done|]. cbn [Py.split replace_char].
  destruct (decide (e = c)) as [->|Hne].
  - rewrite <- IH. pose proof (split_nonempty c s).
    destruct (Py.split c s) as [|w ws]; [done|]. done.
  - rewrite <- IH. pose proof (split_nonempty c s).
    destruct (Py.split c s) as [|w [|w' ws]]; done.
Qed.

(** X8. [operational], for an application whose address is a string:
    one debug line, then one shell command, the probe of the address with
    every colon replaced by a space; the result is [True] exactly when the
    command returns 0, and the configuration is not changed. *)
Theorem operational_probe {E} (X : Collaborators E) (a : App E) address :
  conf a !! "address" = Some (VStr address) →
  ∃ w r,
    os_system X (probe_cmd address) (ext a) = (w, r)
    ∧ operational X a =
        (set_world (trace a ++ [Dbg "Checking if operational" []; System (probe_cmd address)])
           w a,
         inr (bool_decide (r = 0%Z))).
Proof.
  intros Ha. unfold operational, bind, dbg, emit, get, conf_get, system, call.
  cbn [conf set_world ext trace]. rewrite Ha. cbn [default from_option id str_method ret].
  rewrite (join_split_replace ":" " "). fold (probe_cmd address).
  cbn [ext set_world trace].
  destruct (os_system X (probe_cmd address) (ext a)) as [w r] eqn:Hs.
  exists w, r. split; [done|]. cbn. by rewrite <- app_assoc.
Qed.

Lemma operational_probe_witness :
  ∃ w r,
    os_system (Demo.cluster true true 256) (probe_cmd "localhost:9092")
      (ext (Demo.app {[ "address" := VStr "localhost:9092" ]})) = (w, r)
    ∧ operational (Demo.cluster true true 256) (Demo.app {[ "address" := VStr "localhost:9092" ]})
      = (set_world
           (trace (Demo.app {[ "address" := VStr "localhost:9092" ]})
            ++ [Dbg "Checking if operational" []; System (probe_cmd "localhost:9092")])
           w (Demo.app {[ "address" := VStr "localhost:9092" ]}),
         inr (bool_decide (r = 0%Z))).
Proof.
  apply (operational_probe (Demo.cluster true true 256)
           (Demo.app {[ "address" := VStr "localhost:9092" ]}) "localhost:9092").
  vm_compute. reflexivity.
Defined.

(** X9. [operational] on an application without an address, or with an
    address that is not a string, raises [AttributeError] and runs no
    command. *)
Theorem operational_without_address {E} (X : Collaborators E) (a : App E) :
  (∀ s, conf a !! "address" ≠ Some (VStr s)) →
  operational X a =
    (set_world (trace a ++ [Dbg "Checking if operational" []]) (ext a) a,
     inl AttributeError).
Proof.
  intros Ha. unfold operational, bind, dbg, emit, get, conf_get.
  cbn [conf set_world]. destruct (conf a !! "address") as [[s|n|]|]; try done.
  by destruct (Ha s).
Qed.

Lemma operational_without_address_witness :
  operational (Demo.cluster true true 0)
    {| conf := ∅; name := "KafkaBrokerApp"; node_name := "localhost"; zk := None;
       kerberos := None; trace := []; ext := 9092%Z |}
  = (set_world ([] ++ [Dbg "Checking if operational" []]) 9092%Z
       {| conf := ∅; name := "KafkaBrokerApp"; node_name := "localhost"; zk := None;
          kerberos := None; trace := []; ext := 9092%Z |},
     inl AttributeError).
Proof.
  apply (operational_without_address (Demo.cluster true true 0)
           {| conf := ∅; name := "KafkaBrokerApp"; node_name := "localhost"; zk := None;
              kerberos := None; trace := []; ext := 9092%Z |}).
  intros s. vm_compute. discriminate.
Defined.

(** X10. Whatever makes [deploy] raise (the deploy directory, a version
    that is no string, a missing script, a failed command, a missing
    [conf_file]), the configuration is the one from before the call. *)
Theorem deploy_raise_keeps_conf {E} (X : Collaborators E) (a a' : App E) e :
  deploy X a = (a', inl e) → conf a' = conf a.
Proof.
  intros H.
  apply (wp_elim _ (λ _ _, True) (λ _ a', conf a' = conf a)) in H; [done|]. clear H.
  unfold deploy, get, dbg, system. wp_prim.
  apply wp_call. intros w0 [e0|root] _; [done|]. repeat wp_prim.
  destruct (default VNone _) as [v|n|]; cbn [path_arg]; repeat wp_prim; try done.
  destruct (os_path_exists X _ _); repeat wp_prim; try done.
  apply wp_call. intros w1 r1 _. destruct r1 as [e1|r]; [done|]. repeat wp_prim.
  destruct (bool_decide (r ≠ 0%Z)); repeat wp_prim; try done.
  apply wp_conf_item. cbn [conf set_world]. destruct (conf a !! "conf_file"); [|done].
  repeat wp_prim. apply wp_conf_item. cbn [conf set_conf set_world].
  rewrite lookup_insert_eq. by repeat wp_prim.
Qed.

Lemma deploy_raise_keeps_conf_witness :
  conf (deploy (Demo.cluster true true 1)
          (Demo.app {[ "version" := VStr "0.9.0.1"; "start_cmd" := VStr "x" ]})).1
  = conf (Demo.app {[ "version" := VStr "0.9.0.1"; "start_cmd" := VStr "x" ]}).
Proof.
  apply (deploy_raise_keeps_conf (Demo.cluster true true 1)
           (Demo.app {[ "version" := VStr "0.9.0.1"; "start_cmd" := VStr "x" ]}) _
           (Exception (deploy_failure
              (deploy_cmd "/res/deploy.sh" (VStr "0.9.0.1") VNone
                 "/tmp/KafkaBrokerApp/kafka/0.9.0.1") 1))).
  vm_compute. reflexivity.
Defined.

(** X11. When the deploy script is not there, [deploy] raises
    [NotImplementedError] with the path of the script before any command
    is run: no [os.system] call is added to the trace and the
    configuration is unchanged. *)
Theorem deploy_script_missing {E} (X : Collaborators E) (a : App E) root w0 v :
  mkpath X "KafkaBrokerApp" (ext a) = (w0, inr root) →
  conf a !! "version" = Some (VStr v) →
  os_path_exists X (resource_path X "deploy.sh" w0) w0 = false →
  ∃ a',
    deploy X a =
      (a', inl (NotImplementedError
                  ("Kafka deploy.sh script missing in " +:+ resource_path X "deploy.sh" w0)))
    ∧ conf a' = conf a
    ∧ ∀ cmd, System cmd ∈ trace a' → System cmd ∈ trace a.
Proof.
  intros Hmk Hv Hex.
  cut (wp (deploy X) (λ _ _, False)
         (λ e a', e = NotImplementedError
                        ("Kafka deploy.sh script missing in " +:+ resource_path X "deploy.sh" w0)
                  ∧ conf a' = conf a
                  ∧ ∀ cmd, System cmd ∈ trace a' → System cmd ∈ trace a) a).
  { unfold wp. destruct (deploy X a) as [a' [e|x]]; [|done].
    intros (-> & Hc & Ht). by exists a'. }
  unfold deploy, get, dbg, system. wp_prim.
  apply wp_call. intros w1 r1 Hmk'. rewrite Hmk in Hmk'. injection Hmk' as <- <-.
  repeat wp_prim. cbn [conf set_world]. rewrite Hv. cbn [default from_option id path_arg].
  repeat wp_prim. cbn [ext set_world]. rewrite Hex. repeat wp_prim.
  split_and!; [done..|]. intros cmd. cbn [trace set_world].
  rewrite !elem_of_app, !list_elem_of_singleton. intros [[?|?]|?]; done.
Qed.

Lemma deploy_script_missing_witness :
  ∃ a',
    deploy {| find_app := λ _ _, None; TcpPortAllocator_next := λ w, (w, inr w);
              add_principal := λ _ _ _ w, (w, inl TypeError);
              create_file := λ _ _ w, (w, inl TypeError);
              create_dir := λ _ w, (w, inl TypeError);
              create_file_from_template := λ _ _ _ _ w, (w, inl TypeError);
              mkpath := λ n w, (w, inr ("/tmp/" +:+ n));
              resource_path := λ n _, "/res/" +:+ n;
              os_path_exists := λ _ _, false;
              os_system := λ _ w, (w, 0%Z);
              time_time := λ _, 0%Z |}
      (Demo.app {[ "version" := VStr "0.9.0.1" ]})
    = (a', inl (NotImplementedError
                  ("Kafka deploy.sh script missing in " +:+ ("/res/" +:+ "deploy.sh"))))
    ∧ conf a' = conf (Demo.app {[ "version" := VStr "0.9.0.1" ]})
    ∧ ∀ cmd, System cmd ∈ trace a' →
             System cmd ∈ trace (Demo.app {[ "version" := VStr "0.9.0.1" ]}).
Proof.
  apply (deploy_script_missing
           {| find_app := λ _ _, None; TcpPortAllocator_next := λ w, (w, inr w);
              add_principal := λ _ _ _ w, (w, inl TypeError);
              create_file := λ _ _ w, (w, inl TypeError);
              create_dir := λ _ w, (w, inl TypeError);
              create_file_from_template := λ _ _ _ _ w, (w, inl TypeError);
              mkpath := λ n w, (w, inr ("/tmp/" +:+ n));
              resource_path := λ n _, "/res/" +:+ n;
              os_path_exists := λ _ _, false;
              os_system := λ _ w, (w, 0%Z);
              time_time := λ _, 0%Z |}
           (Demo.app {[ "version" := VStr "0.9.0.1" ]})
           "/tmp/KafkaBrokerApp" 9092%Z "0.9.0.1").
  - vm_compute. reflexivity.
  - vm_compute. reflexivity.
  - reflexivity.
Defined.

(** X12. When the script is there, the command returns 0 and the
    configuration has a [conf_file], [deploy] returns and has changed one
    thing in the configuration: [start_cmd] is now
    [bin/kafka-server-start.sh] under the deploy directory, which is
    [kafka/<version>] under the path of the cluster, followed by the
    configuration file. *)
Theorem deploy_rewrites_start_cmd {E} (X : Collaborators E) (a : App E) root w0 v w f :
  mkpath X "KafkaBrokerApp" (ext a) = (w0, inr root) →
  conf a !! "version" = Some (VStr v) →
  os_path_exists X (resource_path X "deploy.sh" w0) w0 = true →
  os_system X (deploy_cmd (resource_path X "deploy.sh" w0) (VStr v)
                 (default VNone (conf a !! "kafka_path"))
                 (Py.path_join root ["kafka"; v])) w0 = (w, 0%Z) →
  conf a !! "conf_file" = Some f →
  ∃ a',
    deploy X a = (a', inr tt)
    ∧ conf a' =
        <["start_cmd" := VStr (Py.path_join root ["kafka"; v]
                               +:+ "/bin/kafka-server-start.sh " +:+ str f)]> (conf a).
Proof.
  intros Hmk Hv Hex Hsys Hf.
  cut (wp (deploy X)
         (λ _ a', conf a' =
            <["start_cmd" := VStr (Py.path_join root ["kafka"; v]
                                   +:+ "/bin/kafka-server-start.sh " +:+ str f)]> (conf a))
         (λ _ _, False) a).
  { unfold wp. destruct (deploy X a) as [a' [e|[]]]; [done|]. intros Hc. by exists a'. }
  unfold deploy, get, dbg, system. wp_prim.
  apply wp_call. intros w1 r1 Hmk'. rewrite Hmk in Hmk'. injection Hmk' as <- <-.
  repeat wp_prim. cbn [conf set_world]. rewrite Hv. cbn [default from_option id path_arg].
  repeat wp_prim. cbn [ext set_world]. rewrite Hex. repeat wp_prim.
  cbn [conf set_world]. rewrite Hv. cbn [default from_option id].
  apply wp_call. intros w2 r2 Hsys'. cbn [ext set_world] in Hsys'.
  rewrite Hsys in Hsys'. injection Hsys' as <- <-. repeat wp_prim.
  rewrite bool_decide_eq_false_2 by (by intros H). repeat wp_prim.
  apply wp_conf_item. cbn [conf set_world]. rewrite Hf. repeat wp_prim.
  apply wp_conf_item. cbn [conf set_conf set_world]. rewrite lookup_insert_eq.
  by repeat wp_prim.
Qed.

Lemma deploy_rewrites_start_cmd_witness :
  ∃ a',
    deploy (Demo.cluster true true 0)
      (Demo.app {[ "version" := VStr "0.9.0.1"; "conf_file" := VStr "/tmp/server.properties" ]})
    = (a', inr tt)
    ∧ conf a' =
        <["start_cmd" := VStr (Py.path_join "/tmp/KafkaBrokerApp" ["kafka"; "0.9.0.1"]
                               +:+ "/bin/kafka-server-start.sh "
                               +:+ str (VStr "/tmp/server.properties"))]>
          (conf (Demo.app {[ "version" := VStr "0.9.0.1";
                             "conf_file" := VStr "/tmp/server.properties" ]})).
Proof.
  apply (deploy_rewrites_start_cmd (Demo.cluster true true 0)
           (Demo.app {[ "version" := VStr "0.9.0.1";
                        "conf_file" := VStr "/tmp/server.properties" ]})
           "/tmp/KafkaBrokerApp" 9092%Z "0.9.0.1" 9092%Z (VStr "/tmp/server.properties")).
  - vm_compute. reflexivity.
  - vm_compute. reflexivity.
  - vm_compute. reflexivity.
  - vm_compute. reflexivity.
  - vm_compute. reflexivity.
Defined.

Lemma modifies_after_zookeeper {E} (X : Collaborators E) :
  modifies early_keys
    (normalise_version (E:=E) ;;
     ls <~ requested_listeners;
     ports <~ allocate_ports X ls.1;
     publish_listeners ports ;;
     ret (ls.2, ports)).
Proof.
  unfold normalise_version, requested_listeners, allocate_ports, publish_listeners,
    str_method, fmt_d, dbg.
  modifies_tac.
Qed.

Lemma listeners_phase_keeps {E} (X : Collaborators E) (a a1 : App E) r k :
  listeners_phase X a = (a1, r) → k ∉ early_keys → conf a1 !! k = conf a !! k.
Proof.
  unfold listeners_phase. unfold bind at 1.
  destruct (resolve_zookeeper X a) as [a0 r0] eqn:Hz.
  assert (conf a0 = conf a) as Hc.
  { revert Hz. unfold resolve_zookeeper, bind, attr, zk_store.
    destruct (find_app X _ _); by intros [= <- _]. }
  destruct r0 as [e|[]].
  - intros [= <- _] _. by rewrite Hc.
  - intros Hrest Hk. apply modifies_after_zookeeper in Hrest as (Hconf & _).
    rewrite Hconf by done. by rewrite Hc.
Qed.

(** X13. Whatever its outcome, the constructor stores under fifteen keys
    at most ([version], [port], [address], [listeners],
    [advertised.listeners], [kafka_path], [jaas_file], [log_dirs],
    [num_partitions], [zk_connect], [replication_factor], [conf_file],
    [log4j_file], [start_cmd], [stop_cmd]): every other entry of the
    configuration is as the caller gave it. *)
Theorem constructor_keeps_other_keys {E} (X : Collaborators E) kp (a a' : App E) r k :
  __init__ X kp a = (a', r) →
  k ∉ early_keys ++ late_keys →
  conf a' !! k = conf a !! k.
Proof.
  rewrite init_phases. unfold bind at 1. intros H Hk.
  apply not_elem_of_app in Hk as [Hearly Hlate].
  destruct (listeners_phase X a) as [a1 [e|x]] eqn:Hrun.
  - injection H as <- _. by eapply listeners_phase_keeps.
  - apply modifies_sasl_phase in H as (Hconf & _). rewrite Hconf by done.
    by eapply listeners_phase_keeps.
Qed.

Lemma constructor_keeps_other_keys_witness :
  conf (__init__ (Demo.cluster true true 0) VNone
          (Demo.app {[ "version" := VStr "0.9.0.1"; "sasl_mechanisms" := VStr "PLAIN";
                       "sasl_users" := VStr "alice" ]})).1 !! "sasl_users"
  = conf (Demo.app {[ "version" := VStr "0.9.0.1"; "sasl_mechanisms" := VStr "PLAIN";
                      "sasl_users" := VStr "alice" ]}) !! "sasl_users".
Proof.
  apply (constructor_keeps_other_keys (Demo.cluster true true 0) VNone
           (Demo.app {[ "version" := VStr "0.9.0.1"; "sasl_mechanisms" := VStr "PLAIN";
                        "sasl_users" := VStr "alice" ]}) _
           (__init__ (Demo.cluster true true 0) VNone
              (Demo.app {[ "version" := VStr "0.9.0.1"; "sasl_mechanisms" := VStr "PLAIN";
                           "sasl_users" := VStr "alice" ]})).2).
  - vm_compute. reflexivity.
  - apply (bool_decide_unpack _). vm_compute. exact I.
Defined.

Lemma split_field_chars sep s w c :
  w ∈ Py.split sep s → c ∈ chars w → c ∈ chars s ∧ c ≠ sep.
Proof.
  revert w. induction s as [|e s IH]; intros w; cbn [Py.split chars].
  - intros ->%list_elem_of_singleton []%elem_of_nil.
  - destruct (decide (e = sep)) as [->|Hne].
    + intros [->|Hw]%elem_of_cons Hc; [by apply elem_of_nil in Hc|].
      destruct (IH w Hw Hc). split; [by right|done].
    + pose proof (split_nonempty sep s) as Hn.
      destruct (Py.split sep s) as [|w0 ws] eqn:Hs; [done|].
      intros [->|Hw]%elem_of_cons Hc.
      * cbn in Hc. apply elem_of_cons in Hc as [->|Hc]; [split; [left|done]|].
        assert (w0 ∈ w0 :: ws) as Hw0 by left.
        destruct (IH w0 Hw0 Hc). split; [by right|done].
      * assert (w ∈ w0 :: ws) as Hw' by (by right).
        destruct (IH w Hw' Hc). split; [by right|done].
Qed.

Lemma parse_sasl_mechs_field csv m :
  m ∈ parse_sasl_mechs csv →
  m ≠ EmptyString ∧ (" "%char ∉ chars m) ∧ (","%char ∉ chars m).
Proof.
  intros [Hlen Hm]%list_elem_of_filter. split_and!.
  - intros ->. cbn in Hlen. lia.
  - intros Hc. destruct (split_field_chars _ _ _ _ Hm Hc) as [Hin _].
    apply chars_remove_char in Hin as [_ ?]. done.
  - intros Hc. destruct (split_field_chars _ _ _ _ Hm Hc) as [_ ?]. done.
Qed.

(** X14. The mechanisms read from a CSV are clean: none is empty, and
    none holds a space or a comma. *)
Theorem sasl_mechs_clean csv :
  Forall (λ m, m ≠ EmptyString ∧ (" "%char ∉ chars m) ∧ (","%char ∉ chars m))
    (parse_sasl_mechs csv).
Proof.
  apply Forall_forall. intros m Hm. exact (parse_sasl_mechs_field csv m Hm).
Qed.

Lemma chars_app s1 s2 : chars (s1 +:+ s2) = chars s1 ++ chars s2.
Proof.
  induction s1 as [|c s1 IH]; [done|].
  change (String c s1 +:+ s2) with (String c (s1 +:+ s2)). cbn [chars app].
  by rewrite IH.
Qed.

Lemma remove_char_absent c s : c ∉ chars s → Py.remove_char c s = s.
Proof.
  induction s as [|d s IH]; [done|]. cbn [chars Py.remove_char].
  intros [Hne Hs]%not_elem_of_cons.
  rewrite decide_False by done. by rewrite IH.
Qed.

Lemma split_absent sep s : sep ∉ chars s → Py.split sep s = [s].
Proof.
  induction s as [|d s IH]; [done|]. cbn [chars Py.split].
  intros [Hne Hs]%not_elem_of_cons.
  rewrite decide_False by done. by rewrite IH.
Qed.

Lemma split_app_sep sep s1 s2 :
  sep ∉ chars s1 →
  Py.split sep (s1 +:+ String sep s2) = s1 :: Py.split sep s2.
Proof.
  induction s1 as [|d s1 IH].
  - intros _. change (EmptyString +:+ String sep s2) with (String sep s2).
    cbn [Py.split]. by rewrite decide_True.
  - cbn [chars]. intros [Hne Hs]%not_elem_of_cons.
    change (String d s1 +:+ String sep s2) with (String d (s1 +:+ String sep s2)).
    cbn [Py.split]. rewrite decide_False by done. by rewrite IH.
Qed.

Lemma split_join sep l :
  l ≠ [] → Forall (λ w, sep ∉ chars w) l →
  Py.split sep (Py.join (String sep EmptyString) l) = l.
Proof.
  intros Hne Hall. induction Hall as [|w l Hw Hall IH]; [done|].
  destruct l as [|w' l'].
  - cbn. by apply split_absent.
  - change (Py.join (String sep EmptyString) (w :: w' :: l'))
      with (w +:+ String sep (Py.join (String sep EmptyString) (w' :: l'))).
    rewrite split_app_sep by done. by rewrite IH.
Qed.

Lemma filter_all {A} (P : A → Prop) `{∀ x, Decision (P x)} (l : list A) :
  Forall P l → filter P l = l.
Proof.
  induction 1 as [|x l Hx _ IH]; [done|]. rewrite filter_cons_True by done. by rewrite IH.
Qed.

Lemma chars_join c sep l :
  c ∈ chars (Py.join sep l) → c ∈ chars sep ∨ ∃ w, w ∈ l ∧ c ∈ chars w.
Proof.
  induction l as [|w [|w' l'] IH].
  - by intros []%elem_of_nil.
  - intros Hc. right. exists w. split; [left|done].
  - change (Py.join sep (w :: w' :: l')) with (w +:+ sep +:+ Py.join sep (w' :: l')).
    rewrite !chars_app, !elem_of_app. intros [Hc|[Hc|Hc]].
    + right. exists w. split; [left|done].
    + by left.
    + destruct (IH Hc) as [?|(w0 & Hw0 & ?)]; [by left|].
      right. exists w0. split; [by right|done].
Qed.

(** X15. Round trip of the mechanisms: the comma-joined list that is
    published as [sasl.enabled.mechanisms] reads back as the same list of
    mechanisms. *)
Theorem sasl_mechs_round_trip csv :
  parse_sasl_mechs (Py.join "," (parse_sasl_mechs csv)) = parse_sasl_mechs csv.
Proof.
  assert (Forall (λ m, m ≠ EmptyString ∧ (" "%char ∉ chars m) ∧ (","%char ∉ chars m))
            (parse_sasl_mechs csv)) as Hclean
    by (apply Forall_forall; intros m Hm; exact (parse_sasl_mechs_field csv m Hm)).
  destruct (parse_sasl_mechs csv) as [|m ms] eqn:Hp; [done|].
  unfold parse_sasl_mechs at 1.
  rewrite remove_char_absent.
  - rewrite split_join; [|done|].
    + apply filter_all. eapply Forall_impl; [exact Hclean|].
      intros w (Hne & _ & _). destruct w; [done|cbn; lia].
    + eapply Forall_impl; [exact Hclean|]. by intros w (_ & _ & ?).
  - intros [Hc|(w & Hw & Hc)]%chars_join.
    + apply list_elem_of_singleton in Hc. done.
    + rewrite Forall_forall in Hclean. by destruct (Hclean w Hw) as (_ & ? & _).
Qed.

(** X16. An empty entry among the users is malformed too: with PLAIN
    requested and a non-empty [sasl_users] that has an empty field (a
    trailing comma, a doubled comma), the constructor raises, and it is
    [ValueError] when its first part has returned. *)
Theorem empty_user_entry_value_error {E} (X : Collaborators E) kp (a : App E) mcsv ucsv :
  conf a !! "sasl_mechanisms" = Some (VStr mcsv) →
  "PLAIN" ∈ parse_sasl_mechs mcsv →
  conf a !! "sasl_users" = Some (VStr ucsv) →
  ucsv ≠ EmptyString →
  EmptyString ∈ Py.split "," ucsv →
  ∃ a' e, __init__ X kp a = (a', inl e)
          ∧ ∀ a1 mechs ports,
              listeners_phase X a = (a1, inr (mechs, ports)) → e = ValueError.
Proof.
  intros Hm Hplain Hu Hne Hempty.
  assert (plain_result (parse_sasl_mechs mcsv) (VStr ucsv) = inl ValueError) as Hres.
  { unfold plain_result, Py.contains. rewrite bool_decide_eq_true_2 by done.
    destruct ucsv as [|c u]; [done|].
    rewrite parse_users_none; [done|]. exists EmptyString. split; [done|]. cbn. lia. }
  rewrite init_phases. unfold bind at 1.
  destruct (listeners_phase X a) as [a1 [e|[mechs ports]]] eqn:Hrun.
  - exists a1, e. split; [done|]. intros ? ? ? [=].
  - pose proof (listeners_phase_run X a a1 _ Hrun) as Hpub. cbn [fst snd] in Hpub.
    destruct (pub_listeners _ _ _ _ _ Hpub) as (lcsv & mcsv' & _ & Hm' & -> & _).
    rewrite Hm in Hm'. injection Hm' as <-. cbn [fst].
    destruct (sasl_phase X kp (parse_sasl_mechs mcsv) a1) as [a' r] eqn:Hs.
    apply sasl_phase_run in Hs as (a2 & r2 & Hc & Hp).
    apply configure_sasl_run in Hc;
      [|by intros Hnil; rewrite Hnil in Hplain; apply elem_of_nil in Hplain].
    rewrite (late_lookup a a1) in Hc; [|apply Hpub|by apply (bool_decide_unpack _)..].
    rewrite Hu in Hc. cbn [default from_option id] in Hc. rewrite Hres in Hc.
    destruct Hc as [-> ->]. destruct Hp as [-> ->]. eauto.
Qed.

Lemma empty_user_entry_value_error_witness :
  ∃ a' e, __init__ (Demo.cluster true true 0) VNone
            (Demo.app {[ "version" := VStr "0.9.0.1"; "sasl_mechanisms" := VStr "PLAIN";
                         "sasl_users" := VStr "alice=secret," ]}) = (a', inl e)
          ∧ ∀ a1 mechs ports,
              listeners_phase (Demo.cluster true true 0)
                (Demo.app {[ "version" := VStr "0.9.0.1"; "sasl_mechanisms" := VStr "PLAIN";
                             "sasl_users" := VStr "alice=secret," ]})
              = (a1, inr (mechs, ports)) → e = ValueError.
Proof.
  apply (empty_user_entry_value_error (Demo.cluster true true 0) VNone
           (Demo.app {[ "version" := VStr "0.9.0.1"; "sasl_mechanisms" := VStr "PLAIN";
                        "sasl_users" := VStr "alice=secret," ]})
           "PLAIN" "alice=secret,").
  - vm_compute. reflexivity.
  - apply (bool_decide_unpack _). vm_compute. exact I.
  - vm_compute. reflexivity.
  - discriminate.
  - apply (bool_decide_unpack _). vm_compute. exact I.
Defined.



(** X18. Without SASL the constructor returns as soon as its
    surroundings are in order: a Zookeeper application, a version, a node
    name, listeners given as a string or left out, a [kafka_path] that is
    [None], a string or the integer 0 (a non-zero integer is truthy and
    cannot be joined to a path), and collaborators that do not fail. *)
Theorem construction_returns {E} (X : Collaborators E) kp (a : App E) h v nodename lcsv mcsv :
  cooperative X →
  find_app X (ByName "ZookeeperApp") (ext a) = Some h →
  conf a !! "version" = Some v →
  conf a !! "nodename" = Some nodename →
  default (VStr "PLAINTEXT") (conf a !! "listeners") = VStr lcsv →
  default (VStr EmptyString) (conf a !! "sasl_mechanisms") = VStr mcsv →
  parse_sasl_mechs mcsv = [] →
  (∀ n, kp = VInt n → n = 0%Z) →
  ∃ a', __init__ X kp a = (a', inr tt).
Proof.
  intros HX Hzk Hv Hn Hl Hm Hnone Hkp.
  destruct (listeners_phase_ok X a h v nodename lcsv mcsv) as (a1 & ports & Hrun & Hpub & Hzk1);
    [apply HX|done..|].
  rewrite init_phases. unfold bind at 1. rewrite Hrun. cbn [fst]. rewrite Hnone.
  unfold sasl_phase, bind, conf_store. rewrite configure_sasl_none.
  destruct (configure_properties_ok X [] kp (set_conf (insert "kafka_path" kp) a1) h HX)
    as (a' & Hok); [done..|].
  exists a'. exact Hok.
Qed.

Lemma construction_returns_witness :
  ∃ a', __init__ (Demo.cluster true true 0) (VStr "/opt/kafka")
          (Demo.app {[ "version" := VStr "trunk" ]}) = (a', inr tt).
Proof.
  apply (construction_returns (Demo.cluster true true 0) (VStr "/opt/kafka")
           (Demo.app {[ "version" := VStr "trunk" ]})
           Demo.zookeeper (VStr "trunk") (VStr "localhost") "PLAINTEXT" EmptyString).
  - apply demo_cooperative.
  - reflexivity.
  - vm_compute. reflexivity.
  - vm_compute. reflexivity.
  - vm_compute. reflexivity.
  - vm_compute. reflexivity.
  - vm_compute. reflexivity.
  - intros n Hn. discriminate Hn.
Defined.
